(** * SQL Query Agent: the workflow nodes, their routing and the display trimming

    A shallow embedding of [src/SQL_Query_Agent.py] (the [State] schema, the
    [WorkflowManager] nodes and the graph wired in [SQLQueryAgent._build_graph])
    and of [UIManager._process_query_suggestions] from [src/streamlit_app.py];
    then of the session handling and the controller of [src/streamlit_app.py],
    of the utilities of [src/utils.py] and of [DatabaseConfig] from
    [src/config.py].

    The language model chains, the database tool and the person answering the
    interrupt are external: each call to them is an input of the model.  A
    Python exception is modelled by its text, [str(e)]. *)

From Stdlib Require Import Ascii.
From stdpp Require Import base option list strings gmap pretty.

Open Scope string_scope.
Open Scope list_scope.
Open Scope stdpp_scope.
Open Scope nat_scope.

(** ** Python results: a value, or a raised exception *)

Inductive result (A : Type) : Type :=
| Ok (a : A)
| Raise (e : string).
Arguments Ok {A} a.
Arguments Raise {A} e.

#[global] Instance result_ret : MRet result := fun A a => Ok a.
#[global] Instance result_bind : MBind result := fun A B f r =>
  match r with
  | Ok a => f a
  | Raise e => Raise e
  end.

(** [try: body  except Exception as e: handler(e)] *)
Definition try_except {A} (body : result A) (handler : string → A) : A :=
  match body with
  | Ok a => a
  | Raise e => handler e
  end.

(** The part of Python's [str] and [repr] that the nodes rely on.  [repr] of a
    [str] (quoting and escaping) is a built-in of the interpreter. *)
Class PyBuiltins := { repr_str : string → string }.

(** [str(x)] for [x] a [str] or [None]. *)
Definition str_opt (x : option string) : string :=
  match x with
  | Some s => s
  | None => "None"
  end.

Fixpoint join (sep : string) (l : list string) : string :=
  match l with
  | [] => ""
  | [x] => x
  | x :: rest => x +:+ sep +:+ join sep rest
  end.

(** [str(l)] for [l] a list of [str]. *)
Definition str_list `{PyBuiltins} (l : list string) : string :=
  "[" +:+ join ", " (repr_str <$> l) +:+ "]".

(** Truthiness of a value that is [None] or a list. *)
Definition truthy {A} (x : option (list A)) : bool :=
  match x with
  | Some (_ :: _) => true
  | _ => false
  end.

(** ** The data model *)

(** [QueryOutput]: the structured response of a chain. *)
Record QueryOutput := {
  resp_query : string;
  resp_suggestion : list string;
}.

(** The dict stored next to a producer name in [query_suggestion]: the key
    ["query"] is always there, the key ["suggestion"] only for agent 3. *)
Record QueryData := {
  query : string;
  suggestion : option (list string);
}.

Inductive Message :=
| AIMessage (content : string)
| HumanMessage (content : string).

(** [class State(MessagesState)] *)
Record State := {
  messages : list Message;
  user_request : string;
  user_feedback : string;
  selected_query : option string;
  query_suggestion : list (string * QueryData);
  refactoring_suggestion : option (list string);
  query_result : option string;
  error_message : option string;
}.

(** A node returns a dict with some of the keys of [State]; one [Write] is one
    key of that dict with its value. *)
Inductive Write :=
| Key_messages (v : list Message)
| Key_user_request (v : string)
| Key_user_feedback (v : string)
| Key_selected_query (v : option string)
| Key_query_suggestion (v : list (string * QueryData))
| Key_refactoring_suggestion (v : option (list string))
| Key_query_result (v : option string)
| Key_error_message (v : option string).

Definition Update := list Write.

(** The merge policy of each key: [query_suggestion] is annotated with
    [operator.add] and [messages] with [add_messages] (the messages the nodes
    build carry no id, so they are appended); every other key keeps the last
    value written. *)
Definition apply_write (st : State) (w : Write) : State :=
  match w with
  | Key_messages v =>
      {| messages := messages st ++ v; user_request := user_request st;
         user_feedback := user_feedback st; selected_query := selected_query st;
         query_suggestion := query_suggestion st;
         refactoring_suggestion := refactoring_suggestion st;
         query_result := query_result st; error_message := error_message st |}
  | Key_user_request v =>
      {| messages := messages st; user_request := v;
         user_feedback := user_feedback st; selected_query := selected_query st;
         query_suggestion := query_suggestion st;
         refactoring_suggestion := refactoring_suggestion st;
         query_result := query_result st; error_message := error_message st |}
  | Key_user_feedback v =>
      {| messages := messages st; user_request := user_request st;
         user_feedback := v; selected_query := selected_query st;
         query_suggestion := query_suggestion st;
         refactoring_suggestion := refactoring_suggestion st;
         query_result := query_result st; error_message := error_message st |}
  | Key_selected_query v =>
      {| messages := messages st; user_request := user_request st;
         user_feedback := user_feedback st; selected_query := v;
         query_suggestion := query_suggestion st;
         refactoring_suggestion := refactoring_suggestion st;
         query_result := query_result st; error_message := error_message st |}
  | Key_query_suggestion v =>
      {| messages := messages st; user_request := user_request st;
         user_feedback := user_feedback st; selected_query := selected_query st;
         query_suggestion := query_suggestion st ++ v;
         refactoring_suggestion := refactoring_suggestion st;
         query_result := query_result st; error_message := error_message st |}
  | Key_refactoring_suggestion v =>
      {| messages := messages st; user_request := user_request st;
         user_feedback := user_feedback st; selected_query := selected_query st;
         query_suggestion := query_suggestion st;
         refactoring_suggestion := v;
         query_result := query_result st; error_message := error_message st |}
  | Key_query_result v =>
      {| messages := messages st; user_request := user_request st;
         user_feedback := user_feedback st; selected_query := selected_query st;
         query_suggestion := query_suggestion st;
         refactoring_suggestion := refactoring_suggestion st;
         query_result := v; error_message := error_message st |}
  | Key_error_message v =>
      {| messages := messages st; user_request := user_request st;
         user_feedback := user_feedback st; selected_query := selected_query st;
         query_suggestion := query_suggestion st;
         refactoring_suggestion := refactoring_suggestion st;
         query_result := query_result st; error_message := v |}
  end.

Definition apply_update (st : State) (u : Update) : State :=
  foldl apply_write st u.

(** ** The collaborators *)

(** The dict built by [get_query_params]. *)
Record Params := {
  dialect : string;
  top_k : nat;
  table_info : list string;
  entity_relationship : string;
  question : string;
  params_user_feedback : string;
}.

(** [DatabaseManager]: the properties read by [get_query_params] and the
    query tool, each of which may raise. *)
Record DatabaseManager := {
  db_dialect : result string;
  db_usable_tables : result (list string);
  db_execute_query : option string → result string;
}.

(** [QueryChainManager]: the loaded entity-relationship text and the three
    chains ([chain.invoke(params)]). *)
Record QueryChainManager := {
  erd : string;
  basic_chain : Params → result QueryOutput;
  optimized_chain : Params → result QueryOutput;
  advanced_chain : Params → result QueryOutput;
}.

(** What [Send] hands to its target node: the dict with these two keys. *)
Record Payload := {
  payload_user_request : string;
  payload_user_feedback : string;
}.

(** The nodes registered with [add_node], and the graph's [END]. *)
Module Node.
Inductive t :=
| gateway | wait_user_feedback | execute_query
| query_agent_1 | query_agent_2 | query_agent_3
| aggregate | end_on_success | end_on_error | end_on_cancel
| END.
End Node.

Inductive Send := MkSend (target : Node.t) (arg : Payload).

(** ** [WorkflowManager] *)

Section WorkflowManager.
Context `{PyBuiltins}.
Variable db_manager : DatabaseManager.
Variable chain_manager : QueryChainManager.

Definition get_query_params (user_request user_feedback : string)
  : result Params :=
  d ← db_dialect db_manager;
  tables ← db_usable_tables db_manager;
  mret {| dialect := d; top_k := 5; table_info := tables;
          entity_relationship := erd chain_manager;
          question := user_request;
          params_user_feedback := user_feedback |}.

Definition gateway (state : State) : Update :=
  [ Key_selected_query None;
    Key_query_suggestion [];
    Key_refactoring_suggestion None;
    Key_query_result None;
    Key_error_message None ].

Definition generate_query (state : State) : list Send :=
  [ MkSend Node.query_agent_1
      {| payload_user_request := user_request state;
         payload_user_feedback := user_feedback state |};
    MkSend Node.query_agent_2
      {| payload_user_request := user_request state;
         payload_user_feedback := user_feedback state |};
    MkSend Node.query_agent_3
      {| payload_user_request := user_request state;
         payload_user_feedback := user_feedback state |} ].

(** The loop returns at the first entry whose producer is [agent_name]. *)
Fixpoint find_in (entries : list (string * QueryData)) (agent_name : string)
  : option QueryData :=
  match entries with
  | [] => None
  | (agent, query_data) :: rest =>
      if decide (agent = agent_name) then Some query_data
      else find_in rest agent_name
  end.

Definition find_selected_query (state : State) (agent_name : string)
  : option string :=
  match find_in (query_suggestion state) agent_name with
  | Some query_data => Some (query query_data)
  | None => None
  end.

Definition find_suggestion (state : State) (agent_name : string)
  : list string :=
  match find_in (query_suggestion state) agent_name with
  | Some query_data => default [] (suggestion query_data)
  | None => []
  end.

(** [user_input] is what [interrupt] returns once the run is resumed. *)
Definition wait_user_feedback (state : State) (user_input : string) : Update :=
  if decide (user_input = "1") then
    [ Key_user_feedback "1";
      Key_selected_query (find_selected_query state "query_agent_1") ]
  else if decide (user_input = "2") then
    [ Key_user_feedback "2";
      Key_selected_query (find_selected_query state "query_agent_2") ]
  else if decide (user_input = "3") then
    [ Key_user_feedback "3";
      Key_selected_query (find_selected_query state "query_agent_3");
      Key_refactoring_suggestion
        (Some (find_suggestion state "query_agent_3")) ]
  else [ Key_user_feedback user_input ].

Definition next_after_feedback (state : State) : string :=
  let user_input := user_feedback state in
  if decide (user_input ∈ ["1"; "2"; "3"]) then "execute"
  else if decide (user_input ∈ ["stop"; "cancel"; "exit"; "quit"]) then "cancel"
  else "retry".

Definition execute_query (state : State) : Update :=
  let selected_query := selected_query state in
  try_except
    (query_result ← db_execute_query db_manager selected_query;
     mret [ Key_query_result (Some query_result); Key_error_message None ])
    (λ e, [ Key_query_result None; Key_error_message (Some e) ]).

Definition query_agent_1 (state : Payload) : Update :=
  try_except
    (params ← get_query_params (payload_user_request state)
                               (payload_user_feedback state);
     response ← basic_chain chain_manager params;
     mret [ Key_query_suggestion
              [("query_agent_1",
                {| query := resp_query response; suggestion := None |})] ])
    (λ e, [ Key_query_suggestion
              [("query_agent_1",
                {| query := "-- Error: " +:+ e; suggestion := None |})] ]).

Definition query_agent_2 (state : Payload) : Update :=
  try_except
    (params ← get_query_params (payload_user_request state)
                               (payload_user_feedback state);
     response ← optimized_chain chain_manager params;
     mret [ Key_query_suggestion
              [("query_agent_2",
                {| query := resp_query response; suggestion := None |})] ])
    (λ e, [ Key_query_suggestion
              [("query_agent_2",
                {| query := "-- Error: " +:+ e; suggestion := None |})] ]).

Definition query_agent_3 (state : Payload) : Update :=
  try_except
    (params ← get_query_params (payload_user_request state)
                               (payload_user_feedback state);
     response ← advanced_chain chain_manager params;
     mret [ Key_query_suggestion
              [("query_agent_3",
                {| query := resp_query response;
                   suggestion := Some (resp_suggestion response) |})] ])
    (λ e, [ Key_query_suggestion
              [("query_agent_3",
                {| query := "-- Error: " +:+ e; suggestion := Some [] |})] ]).

Definition aggregate (state : State) : Update := [].

Definition end_on_success (state : State) : Update :=
  let messages :=
    [ AIMessage "쿼리 실행 완료";
      AIMessage (str_opt (query_result state)) ] in
  let messages :=
    if truthy (refactoring_suggestion state)
    then messages ++
         [ AIMessage (str_list (default [] (refactoring_suggestion state))) ]
    else messages in
  [ Key_messages messages ].

Definition end_on_error (state : State) : Update :=
  [ Key_messages
      [ AIMessage "쿼리 실행 오류";
        AIMessage (str_opt (error_message state)) ] ].

Definition end_on_cancel (state : State) : Update :=
  [ Key_messages [ AIMessage "쿼리 실행 취소" ] ].
End WorkflowManager.

(** ** The graph built by [SQLQueryAgent._build_graph] *)

(** The order in which the three tasks of a fan-out hand in their updates. *)
Inductive Order := O123 | O132 | O213 | O231 | O312 | O321.

Definition reorder {A} (o : Order) (l : list A) : list A :=
  match l with
  | [a; b; c] =>
      match o with
      | O123 => [a; b; c] | O132 => [a; c; b]
      | O213 => [b; a; c] | O231 => [b; c; a]
      | O312 => [c; a; b] | O321 => [c; b; a]
      end
  | _ => l
  end.

(** What the outside contributes to one step of a run. *)
Record World := {
  world_db : DatabaseManager;
  world_chains : QueryChainManager;
  world_completion : Order;
  world_input : string;
}.

(** Where a run stands: a node about to run ([At Node.wait_user_feedback] is
    the suspended run, continued by the next resume value; [At Node.END] is
    the finished run), or the tasks dispatched by the router of the gateway. *)
Inductive Control :=
| At (n : Node.t)
| Tasks (sends : list Send).

Definition Config : Type := Control * State.

(** The label-to-node dicts of the two [add_conditional_edges] calls. *)
Definition feedback_targets : gmap string Node.t :=
  list_to_map [ ("retry", Node.gateway);
                ("execute", Node.execute_query);
                ("cancel", Node.end_on_cancel) ].

Definition execute_targets : gmap string Node.t :=
  list_to_map [ ("success", Node.end_on_success);
                ("error", Node.end_on_error) ].

(** [lambda x: "success" if x["error_message"] is None else "error"] *)
Definition after_execute (x : State) : string :=
  match error_message x with
  | None => "success"
  | Some _ => "error"
  end.

(** A label outside the dict does not occur ([route_feedback_total],
    [route_execute_total]); the run would stop there. *)
Definition route (targets : gmap string Node.t) (label : string) : Node.t :=
  default Node.END (targets !! label).

Section Engine.
Context `{PyBuiltins}.

(** A [Send] runs its target on the dict it carries. *)
Definition run_task (w : World) (s : Send) : Update :=
  match s with
  | MkSend Node.query_agent_1 arg =>
      query_agent_1 (world_db w) (world_chains w) arg
  | MkSend Node.query_agent_2 arg =>
      query_agent_2 (world_db w) (world_chains w) arg
  | MkSend Node.query_agent_3 arg =>
      query_agent_3 (world_db w) (world_chains w) arg
  | MkSend _ _ => []
  end.

(** The edges: [START → gateway], the fan-out of [generate_query] after the
    gateway, every agent [→ aggregate → wait_user_feedback], the two
    conditional edges, and the three terminals [→ END]. *)
Definition step (w : World) (c : Config) : Config :=
  let '(ctl, st) := c in
  match ctl with
  | At Node.gateway =>
      let st' := apply_update st (gateway st) in
      (Tasks (generate_query st'), st')
  | Tasks sends =>
      (At Node.aggregate,
       foldl apply_update st
         (reorder (world_completion w) (run_task w <$> sends)))
  | At Node.aggregate =>
      (At Node.wait_user_feedback, apply_update st (aggregate st))
  | At Node.wait_user_feedback =>
      let st' := apply_update st (wait_user_feedback st (world_input w)) in
      (At (route feedback_targets (next_after_feedback st')), st')
  | At Node.execute_query =>
      let st' := apply_update st (execute_query (world_db w) st) in
      (At (route execute_targets (after_execute st')), st')
  | At Node.end_on_success =>
      (At Node.END, apply_update st (end_on_success st))
  | At Node.end_on_error =>
      (At Node.END, apply_update st (end_on_error st))
  | At Node.end_on_cancel =>
      (At Node.END, apply_update st (end_on_cancel st))
  | At Node.query_agent_1 | At Node.query_agent_2 | At Node.query_agent_3
  | At Node.END => c
  end.

Definition run (ws : list World) (c : Config) : Config :=
  foldl (λ c w, step w c) c ws.
End Engine.

(** The input of [WorkflowController.process_initial_question]. *)
Definition initial_state (question : string) : State :=
  {| messages := []; user_request := question; user_feedback := "";
     selected_query := None; query_suggestion := [];
     refactoring_suggestion := None; query_result := None;
     error_message := None |}.

Definition start (question : string) : Config :=
  (At Node.gateway, initial_state question).

(** ** [UIManager._process_query_suggestions] *)

Definition agent_order : list string :=
  [ "query_agent_1"; "query_agent_2"; "query_agent_3" ].

Definition _process_query_suggestions (query_suggestions : list (string * QueryData))
  : list (string * QueryData) :=
  match query_suggestions with
  | [] => []
  | _ =>
      let recent_suggestions :=
        if decide (3 < length query_suggestions)
        then drop (length query_suggestions - 3) query_suggestions
        else query_suggestions in
      let latest_suggestions : gmap string QueryData :=
        foldl (λ latest '(agent_name, query_data),
                 <[agent_name := query_data]> latest)
              ∅ recent_suggestions in
      foldl (λ display_suggestions agent_name,
               match latest_suggestions !! agent_name with
               | Some query_data =>
                   display_suggestions ++ [(agent_name, query_data)]
               | None => display_suggestions
               end)
            [] agent_order
  end.

(** ** Vocabulary of the statements *)

Definition selectors : list string := ["1"; "2"; "3"].
Definition cancel_keywords : list string := ["stop"; "cancel"; "exit"; "quit"].

(** The state [st] with other values in the four keys the gateway resets. *)
Definition with_leftovers (st : State) (sq : option string)
    (rs : option (list string)) (qr em : option string) : State :=
  apply_update st
    [ Key_selected_query sq; Key_refactoring_suggestion rs;
      Key_query_result qr; Key_error_message em ].

(** What the body of an agent's [try] evaluates: the parameters, then the
    chain. *)
Definition chain_outcome (w : World)
    (chain : QueryChainManager → Params → result QueryOutput) (st : State)
  : result QueryOutput :=
  params ← get_query_params (world_db w) (world_chains w)
                            (user_request st) (user_feedback st);
  chain (world_chains w) params.

(** The entry each agent hands in, read off its outcome. *)
Definition entry_1 (r : result QueryOutput) : string * QueryData :=
  ("query_agent_1",
   {| query := match r with
               | Ok response => resp_query response
               | Raise e => "-- Error: " +:+ e
               end;
      suggestion := None |}).

Definition entry_2 (r : result QueryOutput) : string * QueryData :=
  ("query_agent_2",
   {| query := match r with
               | Ok response => resp_query response
               | Raise e => "-- Error: " +:+ e
               end;
      suggestion := None |}).

Definition entry_3 (r : result QueryOutput) : string * QueryData :=
  ("query_agent_3",
   match r with
   | Ok response => {| query := resp_query response;
                       suggestion := Some (resp_suggestion response) |}
   | Raise e => {| query := "-- Error: " +:+ e; suggestion := Some [] |}
   end).

Definition cycle_entries (w : World) (st : State) : list (string * QueryData) :=
  reorder (world_completion w)
    [ entry_1 (chain_outcome w basic_chain st);
      entry_2 (chain_outcome w optimized_chain st);
      entry_3 (chain_outcome w advanced_chain st) ].

(** The last three entries of the list (all of it when it is shorter). *)
Definition last_three (qs : list (string * QueryData)) : list (string * QueryData) :=
  drop (length qs - 3) qs.

(** The latest entry of a producer in [l]: the first one met from the end. *)
Definition latest_of (l : list (string * QueryData)) (agent_name : string)
  : option QueryData :=
  find_in (reverse l) agent_name.

(** ** Concrete collaborators and runs used by the examples below *)

Module Examples.
(** A stand-in for [repr]: single quotes around the text. *)
Definition quoting : PyBuiltins := {| repr_str := λ s, "'" +:+ s +:+ "'" |}.

Definition reply (q : string) (sugg : list string) : Params → result QueryOutput :=
  λ _, Ok {| resp_query := q; resp_suggestion := sugg |}.

Definition db_ok : DatabaseManager :=
  {| db_dialect := Ok "sqlite";
     db_usable_tables := Ok ["orders"];
     db_execute_query := λ q, Ok ("[(42,)] for " +:+ str_opt q) |}.

Definition db_failing : DatabaseManager :=
  {| db_dialect := Ok "sqlite";
     db_usable_tables := Ok ["orders"];
     db_execute_query := λ _, Raise "no such table: orders" |}.

(** First cycle: every chain answers. *)
Definition chains_first : QueryChainManager :=
  {| erd := "orders(id, total)";
     basic_chain := reply "SELECT 1" [];
     optimized_chain := reply "SELECT COUNT(*) FROM orders" [];
     advanced_chain := reply "SELECT COUNT(id) FROM orders" ["add an index"] |}.

(** Second cycle: the optimized chain answers with a refined query. *)
Definition chains_second : QueryChainManager :=
  {| erd := "orders(id, total)";
     basic_chain := reply "SELECT 2" [];
     optimized_chain := reply "SELECT COUNT(*) FROM orders WHERE total > 0" [];
     advanced_chain := reply "SELECT COUNT(id) FROM orders WHERE total > 0" [] |}.

(** The optimized chain raises. *)
Definition chains_broken : QueryChainManager :=
  {| erd := "orders(id, total)";
     basic_chain := reply "SELECT 1" [];
     optimized_chain := λ _, Raise "rate limit";
     advanced_chain := reply "SELECT COUNT(id) FROM orders" [] |}.

Definition world (db : DatabaseManager) (chains : QueryChainManager)
    (o : Order) (input : string) : World :=
  {| world_db := db; world_chains := chains;
     world_completion := o; world_input := input |}.

(** gateway, fan-out, aggregate: one generation cycle up to the suspension. *)
Definition cycle (chains : QueryChainManager) (o : Order) : list World :=
  replicate 3 (world db_ok chains o "").

(** A first cycle, the feedback ["only paid orders"], a second cycle, then
    the selector ["2"]. *)
Definition retry_then_pick_2 : list World :=
  cycle chains_first O123 ++ [world db_ok chains_first O123 "only paid orders"]
  ++ cycle chains_second O123 ++ [world db_ok chains_second O123 "2"].

(** The run suspended after its first cycle. *)
Definition suspended_first : State :=
  (run (H:=quoting) (cycle chains_first O123) (start "how many orders?")).2.

(** The run suspended after a cycle whose advanced chain suggested nothing. *)
Definition suspended_no_suggestion : State :=
  (run (H:=quoting) (cycle chains_second O123) (start "how many orders?")).2.

(** The state right after the selector ["1"] was merged. *)
Definition picked_1 : State :=
  (step (H:=quoting) (world db_ok chains_first O123 "1")
        (At Node.wait_user_feedback, suspended_first)).2.
End Examples.

(** * [src/utils.py] *)

(** [str.lower()] follows the Unicode case tables of the interpreter. *)
Class PyText := { str_lower : string → string }.

Definition newline : string := String "010"%char "".
Definition single_quote : ascii := "039"%char.
Definition double_quote : ascii := "034"%char.
Definition star : ascii := "*"%char.

(** [sub in s] for two [str]. *)
Fixpoint contains (sub s : string) : bool :=
  String.prefix sub s ||
  match s with
  | EmptyString => false
  | String _ rest => contains sub rest
  end.

(** [any(keyword in s for keyword in keywords)] *)
Definition any_in (keywords : list string) (s : string) : bool :=
  existsb (λ keyword, contains keyword s) keywords.

Inductive ErrorType :=
| DATABASE_ERROR | LLM_ERROR | WORKFLOW_ERROR
| VALIDATION_ERROR | CONFIGURATION_ERROR | UNKNOWN_ERROR.

Record ErrorInfo := {
  error_type : ErrorType;
  message : string;
  details : option string;
  user_message : option string;
}.

(** [ErrorHandler.ERROR_MESSAGES]: for each type the inner dict, its items in
    the order they are written. *)
Definition ERROR_MESSAGES (t : ErrorType) : list (string * string) :=
  match t with
  | DATABASE_ERROR =>
      [ ("default", "데이터베이스 연결 또는 쿼리 실행 중 오류가 발생했습니다.");
        ("connection", "데이터베이스 연결에 실패했습니다. 설정을 확인해주세요.");
        ("query", "SQL 쿼리 실행 중 오류가 발생했습니다.") ]
  | LLM_ERROR =>
      [ ("default", "AI 모델 호출 중 오류가 발생했습니다.");
        ("api_key", "OpenAI API 키가 유효하지 않습니다.");
        ("quota", "API 사용량이 초과되었습니다.") ]
  | WORKFLOW_ERROR =>
      [ ("default", "워크플로우 처리 중 오류가 발생했습니다.");
        ("state", "워크플로우 상태 관리 중 오류가 발생했습니다.") ]
  | VALIDATION_ERROR =>
      [ ("default", "입력값 검증 중 오류가 발생했습니다.");
        ("empty", "입력값이 비어있습니다.");
        ("invalid", "유효하지 않은 입력값입니다.") ]
  | CONFIGURATION_ERROR =>
      [ ("default", "설정 파일 로드 중 오류가 발생했습니다.");
        ("missing", "필수 설정이 누락되었습니다.");
        ("invalid", "설정값이 유효하지 않습니다.") ]
  | UNKNOWN_ERROR =>
      [ ("default", "알 수 없는 오류가 발생했습니다.") ]
  end.

(** [d[key]] on a dict given by its items: the value, or [KeyError]. *)
Fixpoint getitem (d : list (string * string)) (key : string) : result string :=
  match d with
  | [] => Raise ("'" +:+ key +:+ "'")
  | (k, v) :: rest => if decide (k = key) then Ok v else getitem rest key
  end.

(** What the code does to the outside: a call of the function it was given,
    a log record with its level and text, a sleep. *)
Inductive Effect (D : Type) :=
| Called
| Logged (level text : string)
| Slept (delay : D).
Arguments Called {D}.
Arguments Logged {D} level text.
Arguments Slept {D} delay.

Section ErrorHandler.
Context `{PyText}.

(** An exception is given by its text [str(error)]. *)
Definition categorize_error (error : string) : ErrorType :=
  let error_str := str_lower error in
  if any_in ["mysql"; "database"; "connection"; "sql"] error_str
  then DATABASE_ERROR
  else if any_in ["openai"; "api"; "token"; "model"] error_str
  then LLM_ERROR
  else if any_in ["workflow"; "state"; "interrupt"] error_str
  then WORKFLOW_ERROR
  else if any_in ["validation"; "invalid"; "empty"] error_str
  then VALIDATION_ERROR
  else if any_in ["config"; "setting"; "file not found"] error_str
  then CONFIGURATION_ERROR
  else UNKNOWN_ERROR.

(** The [for keyword, message in messages.items()] loop of
    [get_user_message]: the first message whose keyword is not ["default"]
    and occurs in [error_str]. *)
Fixpoint specific_message (items : list (string * string)) (error_str : string)
  : option string :=
  match items with
  | [] => None
  | (keyword, message) :: rest =>
      if bool_decide (keyword ≠ "default") && contains keyword error_str
      then Some message
      else specific_message rest error_str
  end.

Definition get_user_message (error : string) (error_type : option ErrorType)
  : result string :=
  let error_type :=
    match error_type with
    | None => categorize_error error
    | Some t => t
    end in
  let error_str := str_lower error in
  let messages := ERROR_MESSAGES error_type in
  match specific_message messages error_str with
  | Some message => Ok message
  | None => getitem messages "default"
  end.

(** [format_exc] is what [traceback.format_exc()] returns at that moment; a
    [context] that is [None] or empty adds no line. *)
Definition create_error_info (format_exc : string) (error : string)
    (context : option string) : result ErrorInfo :=
  let error_type := categorize_error error in
  user_message ← get_user_message error (Some error_type);
  let details :=
    match context with
    | Some (String c rest) => "Context: " +:+ String c rest +:+ newline
    | _ => ""
    end in
  let details := details +:+ "Error: " +:+ error +:+ newline in
  let details := details +:+ "Traceback: " +:+ format_exc in
  mret {| error_type := error_type; message := error;
          details := Some details; user_message := Some user_message |}.
End ErrorHandler.

(** ** Code with effects: what was logged, called and slept, and the result *)

Definition Eff (D A : Type) : Type := list (Effect D) * result A.

Definition eff_ret {D A} (a : A) : Eff D A := ([], Ok a).

Definition eff_bind {D A B} (m : Eff D A) (f : A → Eff D B) : Eff D B :=
  match m with
  | (effects, Ok a) => let '(more, r) := f a in (effects ++ more, r)
  | (effects, Raise e) => (effects, Raise e)
  end.

(** [try: body  except Exception as e: handler(e)] for code with effects. *)
Definition eff_try {D A} (body : Eff D A) (handler : string → Eff D A) : Eff D A :=
  match body with
  | (effects, Ok a) => (effects, Ok a)
  | (effects, Raise e) => let '(more, r) := handler e in (effects ++ more, r)
  end.

Definition eff_raise {D A} (e : string) : Eff D A := ([], Raise e).

Definition eff_log {D} (level text : string) : Eff D () :=
  ([Logged level text], Ok ()).

Definition eff_lift {D A} (r : result A) : Eff D A := ([], r).

Notation "x ←ₑ m ; k" := (eff_bind m (λ x, k))
  (at level 20, m at level 100, k at level 200, only parsing).
Notation "m ;ₑ k" := (eff_bind m (λ _, k))
  (at level 100, k at level 200, only parsing, right associativity).

Section SafeExecutor.
Context `{PyText} {D A : Type}.
(** [traceback.format_exc()] and [time.sleep], which raises on a negative
    delay. *)
Variable format_exc : string.
Variable time_sleep : D → result ().

(** [LoggerManager.log_error(logger, error, context)] *)
Definition log_error (error : string) (context : option string) : Eff D () :=
  error_info ←ₑ eff_lift (create_error_info format_exc error context);
  eff_log "error"
    ("Error in " +:+ str_opt context +:+ ": " +:+ message error_info) ;ₑ
  eff_log "debug"
    ("Error details: " +:+ str_opt (details error_info)).

(** [func] gives the outcome of its n-th call, counted from 0. *)
Fixpoint retry_loop (func : nat → result A) (max_retries : Z) (delay : D)
    (context : option string) (attempts : list Z) (calls : nat)
  : Eff D (option A) :=
  match attempts with
  | [] => eff_ret None
  | attempt :: rest =>
      eff_try
        (a ←ₑ ([Called], func calls); eff_ret (Some a))
        (λ e,
           if decide (attempt = max_retries - 1)%Z
           then log_error e context ;ₑ eff_raise e
           else
             eff_log "warning"
               ("Attempt " +:+ pretty (attempt + 1)%Z +:+ " failed in "
                +:+ str_opt context +:+ ": " +:+ e) ;ₑ
             ([Slept delay], time_sleep delay) ;ₑ
             retry_loop func max_retries delay context rest (S calls))
  end.

Definition execute_with_retry (func : nat → result A) (max_retries : Z)
    (delay : D) (context : option string) : Eff D (option A) :=
  retry_loop func max_retries delay context (seqZ 0 max_retries) 0.


(** The wrapper built by [handle_exceptions(error_type, context)] around a
    function named [name], applied to arguments on which the function
    behaves as [func]. *)
Definition handle_exceptions (error_type : option ErrorType)
    (context : option string) (name : string) (func : result A) : Eff D A :=
  eff_try ([Called], func)
          (λ e,
             log_error e (Some match context with
                               | Some (String c rest) => String c rest
                               | _ => name
                               end) ;ₑ
             error_info ←ₑ eff_lift (create_error_info format_exc e context);
             eff_raise e).
End SafeExecutor.

(** ** [Validator] *)

Definition valid_states : list string :=
  [ "waiting_for_question"; "processing"; "waiting_for_feedback" ].

Definition validate_workflow_state (state : string) : result bool :=
  if decide (state ∉ valid_states)
  then Raise ("Invalid workflow state: " +:+ state)
  else Ok true.

Definition validate_database_uri (uri : string) : result bool :=
  if negb (String.prefix "mysql://" uri || String.prefix "mysql+pymysql://" uri)
  then Raise "Database URI must start with 'mysql://' or 'mysql+pymysql://'"
  else Ok true.

(** ** [create_safe_dict] and [sanitize_sql_query] *)

(** The comprehension [{key: data.get(key) for key in safe_keys if key in data}]. *)
Definition create_safe_dict {V} (data : gmap string V) (safe_keys : list string)
  : gmap string V :=
  foldl (λ safe key,
           match data !! key with
           | Some v => <[key := v]> safe
           | None => safe
           end)
        ∅ safe_keys.

(** [re.sub] with the pattern [q[^q]*q] for a quote character [q], the
    replacement being [q***q]: scanning from the left, an opening quote and
    everything up to the next quote is replaced; an opening quote that is
    never closed is kept with all that follows it.  [pending] is [None]
    outside a literal, and inside one the text read since its opening quote,
    last character first. *)
Fixpoint mask_scan (q : ascii) (pending : option (list ascii)) (s : list ascii)
  : list ascii :=
  match s, pending with
  | [], None => []
  | [], Some seen => q :: reverse seen
  | c :: rest, None =>
      if decide (c = q) then mask_scan q (Some []) rest
      else c :: mask_scan q None rest
  | c :: rest, Some seen =>
      if decide (c = q)
      then q :: star :: star :: star :: q :: mask_scan q None rest
      else mask_scan q (Some (c :: seen)) rest
  end.

Definition mask_quoted (q : ascii) (s : list ascii) : list ascii :=
  mask_scan q None s.

Definition sanitize_sql_query (query : string) : string :=
  let query := mask_quoted single_quote (String.list_ascii_of_string query) in
  let query := mask_quoted double_quote query in
  String.string_of_list_ascii query.

(** * [src/config.py] *)

Record DatabaseConfig := {
  hostname : string;
  port : Z;
  database : string;
  username : string;
  password : string;
}.

Definition uri (self : DatabaseConfig) : string :=
  "mysql+pymysql://" +:+ username self +:+ ":" +:+ password self +:+ "@"
  +:+ hostname self +:+ ":" +:+ pretty (port self) +:+ "/" +:+ database self.

(** * [src/streamlit_app.py] *)

(** The argument of [interrupt] in [wait_user_feedback], as found in
    [task.interrupts]. *)
Record Interrupt := {
  interrupt_action : string;
  interrupt_query_suggestions : list (string * QueryData);
  interrupt_question : list string;
}.

Record Task := { interrupts : list Interrupt }.

(** What [agent.get_state(config)] returns. *)
Record StateSnapshot := {
  snapshot_next : list string;
  snapshot_tasks : list Task;
  snapshot_values : State;
}.

(** One item of an event of [agent.stream]: a node name with the dict the
    node returned, or with something that is not a dict. *)
Inductive NodeData :=
| NodeDict (node_data : Update)
| NodeOther.

Inductive Event :=
| EventDict (items : list (string * NodeData))
| EventOther.

(** The input of [agent.stream]: the initial state, or [Command(resume=...)]. *)
Inductive StreamInput :=
| Initial (initial_state : State)
| Resume (feedback : string).

(** The compiled graph as one call of the controller sees it: what [stream]
    yields for an input, and what [get_state] returns afterwards. *)
Record Agent := {
  agent_stream : StreamInput → result (list Event);
  agent_get_state : result StateSnapshot;
}.

(** [interrupt_data or state.values] *)
Inductive InterruptData :=
| FromInterrupt (i : Interrupt)
| FromValues (values : State).

Record ChatMessage := { role : string; content : string }.

(** [st.session_state] *)
Module session_state.
Record t := {
  messages : list ChatMessage;
  agent : option Agent;
  thread_id : string;
  current_interrupt : option InterruptData;
  workflow_state : string;
  buttons_disabled : bool;
  query_suggestions_displayed : bool;
  interaction_panel_cleared : bool;
  feedback_sent : bool;
  pending_feedback : option string;
}.
End session_state.

Section SessionStateManager.
Import session_state.
Implicit Type s : session_state.t.

Definition add_message (role content : string) s : session_state.t :=
  {| messages := messages s ++ [ {| role := role; content := content |} ];
     agent := agent s; thread_id := thread_id s;
     current_interrupt := current_interrupt s;
     workflow_state := workflow_state s;
     buttons_disabled := buttons_disabled s;
     query_suggestions_displayed := query_suggestions_displayed s;
     interaction_panel_cleared := interaction_panel_cleared s;
     feedback_sent := feedback_sent s;
     pending_feedback := pending_feedback s |}.

(** [uuid] is the text of the fresh [uuid.uuid4()]. *)
Definition reset_session (uuid : string) s : session_state.t :=
  {| messages := []; agent := agent s; thread_id := uuid;
     current_interrupt := None;
     workflow_state := "waiting_for_question";
     buttons_disabled := false;
     query_suggestions_displayed := false;
     interaction_panel_cleared := false;
     feedback_sent := false;
     pending_feedback := None |}.

Definition set_workflow_state (state : string) s : session_state.t :=
  {| messages := messages s; agent := agent s; thread_id := thread_id s;
     current_interrupt := current_interrupt s;
     workflow_state := state;
     buttons_disabled := buttons_disabled s;
     query_suggestions_displayed := query_suggestions_displayed s;
     interaction_panel_cleared := interaction_panel_cleared s;
     feedback_sent := feedback_sent s;
     pending_feedback := pending_feedback s |}.

Definition set_processing_state s : session_state.t :=
  {| messages := messages s; agent := agent s; thread_id := thread_id s;
     current_interrupt := current_interrupt s;
     workflow_state := "processing";
     buttons_disabled := buttons_disabled s;
     query_suggestions_displayed := query_suggestions_displayed s;
     interaction_panel_cleared := false;
     feedback_sent := feedback_sent s;
     pending_feedback := pending_feedback s |}.

Definition set_feedback_waiting_state s : session_state.t :=
  {| messages := messages s; agent := agent s; thread_id := thread_id s;
     current_interrupt := current_interrupt s;
     workflow_state := "waiting_for_feedback";
     buttons_disabled := false;
     query_suggestions_displayed := false;
     interaction_panel_cleared := interaction_panel_cleared s;
     feedback_sent := false;
     pending_feedback := pending_feedback s |}.

Definition set_completion_state s : session_state.t :=
  {| messages := messages s; agent := agent s; thread_id := thread_id s;
     current_interrupt := current_interrupt s;
     workflow_state := "waiting_for_question";
     buttons_disabled := false;
     query_suggestions_displayed := false;
     interaction_panel_cleared := true;
     feedback_sent := false;
     pending_feedback := None |}.

Definition set_current_interrupt (i : option InterruptData) s : session_state.t :=
  {| messages := messages s; agent := agent s; thread_id := thread_id s;
     current_interrupt := i;
     workflow_state := workflow_state s;
     buttons_disabled := buttons_disabled s;
     query_suggestions_displayed := query_suggestions_displayed s;
     interaction_panel_cleared := interaction_panel_cleared s;
     feedback_sent := feedback_sent s;
     pending_feedback := pending_feedback s |}.

Definition set_buttons_disabled (b : bool) s : session_state.t :=
  {| messages := messages s; agent := agent s; thread_id := thread_id s;
     current_interrupt := current_interrupt s;
     workflow_state := workflow_state s;
     buttons_disabled := b;
     query_suggestions_displayed := query_suggestions_displayed s;
     interaction_panel_cleared := interaction_panel_cleared s;
     feedback_sent := feedback_sent s;
     pending_feedback := pending_feedback s |}.

Definition set_pending_feedback (p : option string) s : session_state.t :=
  {| messages := messages s; agent := agent s; thread_id := thread_id s;
     current_interrupt := current_interrupt s;
     workflow_state := workflow_state s;
     buttons_disabled := buttons_disabled s;
     query_suggestions_displayed := query_suggestions_displayed s;
     interaction_panel_cleared := interaction_panel_cleared s;
     feedback_sent := feedback_sent s;
     pending_feedback := p |}.

(** [UIManager._display_selection_options]: [button key] is what the call of
    [st.button] with that key returns. *)
Definition _display_selection_options (button : string → bool) s
  : option string * session_state.t :=
  if button "opt1" then (Some "1", set_buttons_disabled true s)
  else if button "opt2" then (Some "2", set_buttons_disabled true s)
  else if button "opt3" then (Some "3", set_buttons_disabled true s)
  else if button "cancel" then (Some "cancel", set_buttons_disabled true s)
  else (None, s).

(** ['messages' in node_data], then [node_data['messages']] *)
Fixpoint node_messages (node_data : Update) : option (list Message) :=
  match node_data with
  | [] => None
  | Key_messages v :: _ => Some v
  | _ :: rest => node_messages rest
  end.

Definition msg_content (msg : Message) : string :=
  match msg with
  | AIMessage c => c
  | HumanMessage c => c
  end.

(** [WorkflowController._process_workflow_events] *)
Definition _process_workflow_events (events : list Event) s : session_state.t :=
  foldl (λ s event,
           match event with
           | EventDict items =>
               foldl (λ s '(node_name, node_data),
                        match node_data with
                        | NodeDict d =>
                            match node_messages d with
                            | Some msgs =>
                                foldl (λ s msg,
                                         add_message "assistant" (msg_content msg) s)
                                      s msgs
                            | None => s
                            end
                        | NodeOther => s
                        end)
                     s items
           | EventOther => s
           end)
        s events.

(** [WorkflowController._extract_interrupt_data] *)
Fixpoint first_interrupt (tasks : list Task) : option Interrupt :=
  match tasks with
  | [] => None
  | task :: rest =>
      match interrupts task with
      | i :: _ => Some i
      | [] => first_interrupt rest
      end
  end.

Definition _extract_interrupt_data (state : StateSnapshot) : InterruptData :=
  match first_interrupt (snapshot_tasks state) with
  | Some i => FromInterrupt i
  | None => FromValues (snapshot_values state)
  end.

(** [WorkflowController._handle_workflow_state] *)
Definition _handle_workflow_state (state : StateSnapshot) s
  : bool * session_state.t :=
  match snapshot_next state with
  | _ :: _ =>
      let interrupt_data := _extract_interrupt_data state in
      (true, set_feedback_waiting_state
               (set_current_interrupt (Some interrupt_data) s))
  | [] =>
      (false, set_completion_state (set_current_interrupt None s))
  end.

(** [WorkflowController.process_initial_question] and [process_feedback]:
    stream, hand the events to the session, read the state.  Any exception on
    the way is caught, and the session is put in the completion state as it
    stands at that moment; an [agent] that is still [None] raises at the
    first attribute access.  What is shown with [st.error] is left out. *)
Definition process_initial_question (question : string) s
  : bool * session_state.t :=
  let initial_state := initial_state question in
  match agent s with
  | None => (false, set_completion_state s)
  | Some a =>
      match agent_stream a (Initial initial_state) with
      | Raise e => (false, set_completion_state s)
      | Ok events =>
          let s := _process_workflow_events events s in
          match agent_get_state a with
          | Raise e => (false, set_completion_state s)
          | Ok state => _handle_workflow_state state s
          end
      end
  end.

Definition process_feedback (feedback : string) s : bool * session_state.t :=
  match agent s with
  | None => (false, set_completion_state s)
  | Some a =>
      match agent_stream a (Resume feedback) with
      | Raise e => (false, set_completion_state s)
      | Ok events =>
          let s := _process_workflow_events events s in
          match agent_get_state a with
          | Raise e => (false, set_completion_state s)
          | Ok state => _handle_workflow_state state s
          end
      end
  end.

(** [StreamlitApp._render_interaction_panel]: which of the three renderers
    is called, if any; [_render_feedback_input] shows nothing without a
    current interrupt. *)
Inductive Panel :=
| QuestionInput
| FeedbackInput (interrupt_data : InterruptData)
| ProcessingState
| NoPanel.

Definition _render_interaction_panel s : Panel :=
  let workflow_state := workflow_state s in
  if bool_decide (workflow_state = "waiting_for_question")
     || interaction_panel_cleared s
  then QuestionInput
  else if decide (workflow_state = "waiting_for_feedback")
  then match current_interrupt s with
       | Some interrupt_data => FeedbackInput interrupt_data
       | None => NoPanel
       end
  else if decide (workflow_state = "processing")
  then ProcessingState
  else NoPanel.

(** [StreamlitApp._handle_pending_feedback], up to the rerun. *)
Definition _handle_pending_feedback s : session_state.t :=
  match pending_feedback s with
  | Some (String c rest) =>
      (process_feedback (String c rest) (set_pending_feedback None s)).2
  | _ => s
  end.
End SessionStateManager.

(** * Vocabulary of the further statements *)

(** The contents of all the messages that the events carry, in order. *)
Definition item_contents (item : string * NodeData) : list string :=
  match item.2 with
  | NodeDict d => msg_content <$> default [] (node_messages d)
  | NodeOther => []
  end.

Definition event_contents (events : list Event) : list string :=
  event ← events;
  match event with
  | EventDict items => items ≫= item_contents
  | EventOther => []
  end.

Definition assistant (content : string) : ChatMessage :=
  {| role := "assistant"; content := content |}.

(** The session [s] with [more] chat messages after its own. *)
Definition with_more_messages (more : list ChatMessage) (s : session_state.t)
  : session_state.t :=
  {| session_state.messages := session_state.messages s ++ more;
     session_state.agent := session_state.agent s;
     session_state.thread_id := session_state.thread_id s;
     session_state.current_interrupt := session_state.current_interrupt s;
     session_state.workflow_state := session_state.workflow_state s;
     session_state.buttons_disabled := session_state.buttons_disabled s;
     session_state.query_suggestions_displayed :=
       session_state.query_suggestions_displayed s;
     session_state.interaction_panel_cleared :=
       session_state.interaction_panel_cleared s;
     session_state.feedback_sent := session_state.feedback_sent s;
     session_state.pending_feedback := session_state.pending_feedback s |}.

(** The text of the warning logged when call number [attempt] (from 0)
    failed with [e]. *)
Definition retry_warning (attempt : nat) (context : option string) (e : string)
  : string :=
  "Attempt " +:+ pretty (Z.of_nat attempt + 1)%Z +:+ " failed in "
  +:+ str_opt context +:+ ": " +:+ e.

(** What [count] failed calls in a row leave behind, the first being call
    number [first]: each is a call, a warning and a sleep. *)
Fixpoint failed_attempts {D} (errs : nat → string) (delay : D)
    (context : option string) (first count : nat) : list (Effect D) :=
  match count with
  | 0 => []
  | S count =>
      Called
      :: Logged "warning" (retry_warning first context (errs first))
      :: Slept delay
      :: failed_attempts errs delay context (S first) count
  end.

(** A text in which every quote [q] belongs to a literal [q***q], except
    possibly one last quote that is never closed. *)
Inductive masked (q : ascii) : list ascii → Prop :=
| masked_nil : masked q []
| masked_open s : q ∉ s → masked q (q :: s)
| masked_text c s : c ≠ q → masked q s → masked q (c :: s)
| masked_literal s :
    masked q s → masked q (q :: star :: star :: star :: q :: s).

(** The outcome of a controller call, whichever of the two it is: [input] is
    what the call hands to [stream]. *)
Definition controller_outcome (input : StreamInput) (s : session_state.t)
    (r : bool * session_state.t) : Prop :=
  (r.1 = true
   ↔ ∃ a events state,
       session_state.agent s = Some a
       ∧ agent_stream a input = Ok events
       ∧ agent_get_state a = Ok state
       ∧ snapshot_next state ≠ [])
  ∧ session_state.workflow_state r.2
    = (if r.1 then "waiting_for_feedback" else "waiting_for_question")
  ∧ validate_workflow_state (session_state.workflow_state r.2) = Ok true
  ∧ session_state.buttons_disabled r.2 = false
  ∧ session_state.feedback_sent r.2 = false
  ∧ session_state.thread_id r.2 = session_state.thread_id s
  ∧ session_state.agent r.2 = session_state.agent s
  ∧ session_state.messages s `prefix_of` session_state.messages r.2
  ∧ (if r.1 then is_Some (session_state.current_interrupt r.2)
              ∧ session_state.pending_feedback r.2 = session_state.pending_feedback s
     else session_state.pending_feedback r.2 = None).


(** An update that writes nothing but [query_suggestion]. *)
Definition only_suggestions (u : Update) : Prop :=
  Forall (λ w, ∃ l, w = Key_query_suggestion l) u.

(** The three placeholder entries of a cycle whose agents all failed with
    [e]. *)
Definition placeholders (e : string) : list (string * QueryData) :=
  [ ("query_agent_1", {| query := "-- Error: " +:+ e; suggestion := None |});
    ("query_agent_2", {| query := "-- Error: " +:+ e; suggestion := None |});
    ("query_agent_3", {| query := "-- Error: " +:+ e; suggestion := Some [] |}) ].

(** The producer whose candidate a selector stands for. *)
Definition agent_of_selector (s : string) : string := "query_agent_" +:+ s.

(** ** Concrete inputs of the further examples *)

Module MoreExamples.
(** Lowering of the letters A to Z, which is what [str.lower] does on a text
    that has no other cased character. *)
Definition lower_char (c : ascii) : ascii :=
  let n := nat_of_ascii c in
  if decide (65 ≤ n ≤ 90) then ascii_of_nat (n + 32) else c.

Fixpoint lower_letters (s : string) : string :=
  match s with
  | EmptyString => EmptyString
  | String c rest => String (lower_char c) (lower_letters rest)
  end.

Definition letters : PyText := {| str_lower := lower_letters |}.

(** Sleeping for a number of seconds given as a natural number. *)
Definition sleep_ok : nat → result () := λ _, Ok ().

(** A function that fails twice and then answers 7. *)
Definition flaky (n : nat) : result nat :=
  if decide (n < 2) then Raise "connection reset" else Ok 7.

(** A function that fails every time, with the number of the call. *)
Definition broken (n : nat) : result nat := Raise ("timeout " +:+ pretty n).

(** A database that cannot tell its dialect. *)
Definition db_down : DatabaseManager :=
  {| db_dialect := Raise "server has gone away";
     db_usable_tables := Ok [];
     db_execute_query := λ _, Raise "server has gone away" |}.
(** A graph that yields the update of the gateway and then stands at
    [wait_user_feedback] with its interrupt. *)
Definition waiting_interrupt : Interrupt :=
  {| interrupt_action := "wait_user_feedback";
     interrupt_query_suggestions := [];
     interrupt_question := ["1, 2, 3"] |}.

Definition suspending_agent : Agent :=
  {| agent_stream := λ _, Ok [EventDict [("gateway", NodeDict [Key_query_suggestion []])]];
     agent_get_state :=
       Ok {| snapshot_next := ["wait_user_feedback"];
             snapshot_tasks := [ {| interrupts := [waiting_interrupt] |} ];
             snapshot_values := initial_state "how many orders?" |} |}.

Definition processing_session : session_state.t :=
  {| session_state.messages := [];
     session_state.agent := Some suspending_agent;
     session_state.thread_id := "thread-1";
     session_state.current_interrupt := None;
     session_state.workflow_state := "processing";
     session_state.buttons_disabled := true;
     session_state.query_suggestions_displayed := false;
     session_state.interaction_panel_cleared := false;
     session_state.feedback_sent := true;
     session_state.pending_feedback := None |}.
End MoreExamples.

(** * Properties *)

(** ** The merge of an update into the state *)

Section Merge.
Implicit Types (st : State) (w : Write) (u : Update).

Lemma apply_update_cons st w u :
  apply_update st (w :: u) = apply_update (apply_write st w) u.
Proof. reflexivity. Qed.

Lemma apply_write_suggestion_prefix st w :
  query_suggestion st `prefix_of` query_suggestion (apply_write st w).
Proof.
  destruct w; simpl; try reflexivity.
  by apply prefix_app_r.
Qed.

Lemma apply_update_suggestion_prefix st u :
  query_suggestion st `prefix_of` query_suggestion (apply_update st u).
Proof.
  revert st. induction u as [|w u IH]; intros st.
  - reflexivity.
  - rewrite apply_update_cons.
    etrans; [apply apply_write_suggestion_prefix | apply IH].
Qed.

Lemma apply_updates_suggestion_prefix st (us : list Update) :
  query_suggestion st `prefix_of` query_suggestion (foldl apply_update st us).
Proof.
  revert st. induction us as [|u us IH]; intros st; simpl.
  - reflexivity.
  - etrans; [apply apply_update_suggestion_prefix | apply IH].
Qed.
End Merge.

(** ** The routers never leave their label dict *)

Lemma route_feedback_total (state : State) :
  feedback_targets !! next_after_feedback state ≠ None.
Proof.
  unfold next_after_feedback.
  repeat case_decide; by vm_compute.
Qed.

Lemma route_execute_total (x : State) :
  execute_targets !! after_execute x ≠ None.
Proof. unfold after_execute. destruct (error_message x); by vm_compute. Qed.

(** ** The engine keeps what was accumulated *)

Section Accumulation.
Context `{PyBuiltins}.

Lemma step_suggestion_prefix (w : World) (c : Config) :
  query_suggestion c.2 `prefix_of` query_suggestion (step w c).2.
Proof.
  destruct c as [[n|sends] st]; simpl.
  - destruct n; simpl; try reflexivity;
      try apply apply_update_suggestion_prefix.
    rewrite app_nil_r. reflexivity.
  - apply apply_updates_suggestion_prefix.
Qed.

Lemma run_suggestion_prefix (ws : list World) (c : Config) :
  query_suggestion c.2 `prefix_of` query_suggestion (run ws c).2.
Proof.
  revert c. induction ws as [|w ws IH]; intros c.
  - reflexivity.
  - change (run (w :: ws) c) with (run ws (step w c)).
    etrans; [apply step_suggestion_prefix | apply IH].
Qed.

(** C7. Whatever the steps of a run (any number of retry cycles, any
    answers of the chains, the database and the user), the entries already
    in [query_suggestion] stay where they are, in order, and the list never
    gets shorter; this holds update by update for every dict a node may
    return, and the [[]] written by the gateway leaves the list as it was. *)
Theorem query_suggestion_never_truncated :
  (∀ (ws : list World) (c : Config),
      query_suggestion c.2 `prefix_of` query_suggestion (run ws c).2
      ∧ length (query_suggestion c.2) ≤ length (query_suggestion (run ws c).2))
  ∧ (∀ (st : State) (u : Update),
      query_suggestion st `prefix_of` query_suggestion (apply_update st u))
  ∧ (∀ (st : State),
      query_suggestion (apply_update st (gateway st)) = query_suggestion st).
Proof.
  split_and!.
  - intros ws c. split.
    + apply run_suggestion_prefix.
    + apply prefix_length, run_suggestion_prefix.
  - apply apply_update_suggestion_prefix.
  - intros st. simpl. apply app_nil_r.
Qed.
End Accumulation.

(** ** The gateway *)

Section Gateway.
Context `{PyBuiltins}.

Lemma gateway_forgets_leftovers st sq rs qr em :
  apply_update (with_leftovers st sq rs qr em)
               (gateway (with_leftovers st sq rs qr em))
  = apply_update st (gateway st).
Proof. destruct st; reflexivity. Qed.

(** C9. The gateway writes [None] to [selected_query],
    [refactoring_suggestion], [query_result] and [error_message] and leaves
    [user_request], [user_feedback], [messages] and [query_suggestion] as
    they were; so whatever those four keys held before, the cycle that
    starts at the gateway runs exactly as it would have without them. *)
Theorem gateway_resets_cycle_fields :
  (∀ st : State,
      let st' := apply_update st (gateway st) in
      selected_query st' = None
      ∧ refactoring_suggestion st' = None
      ∧ query_result st' = None
      ∧ error_message st' = None
      ∧ user_request st' = user_request st
      ∧ user_feedback st' = user_feedback st
      ∧ messages st' = messages st
      ∧ query_suggestion st' = query_suggestion st)
  ∧ (∀ (st : State) sq rs qr em (w : World) (ws : list World),
      run (w :: ws) (At Node.gateway, with_leftovers st sq rs qr em)
      = run (w :: ws) (At Node.gateway, st)).
Proof.
  split.
  - intros st. simpl. split_and!; try reflexivity. apply app_nil_r.
  - intros st sq rs qr em w ws.
    change (run (w :: ws) (At Node.gateway, with_leftovers st sq rs qr em))
      with (run ws (step w (At Node.gateway, with_leftovers st sq rs qr em))).
    change (run (w :: ws) (At Node.gateway, st))
      with (run ws (step w (At Node.gateway, st))).
    f_equal; cbn [step]; by rewrite gateway_forgets_leftovers.
Qed.
End Gateway.

(** ** The suspend point and its router *)

Section Feedback.
Context `{PyBuiltins}.

Lemma wait_user_feedback_stores_input (st : State) (s : string) :
  user_feedback (apply_update st (wait_user_feedback st s)) = s.
Proof.
  unfold wait_user_feedback.
  repeat case_decide; subst; reflexivity.
Qed.

Lemma next_after_feedback_cases (st : State) :
  next_after_feedback st =
    if decide (user_feedback st ∈ selectors) then "execute"
    else if decide (user_feedback st ∈ cancel_keywords) then "cancel"
    else "retry".
Proof. reflexivity. Qed.

(** C3. For every resume string [s], the state merged at the suspend point
    has [user_feedback = s], and the router answers ["execute"] exactly for
    the three selectors, ["cancel"] exactly for the four cancel keywords and
    ["retry"] exactly for every other string; the engine then continues at
    [execute_query], [end_on_cancel] and [gateway] respectively, and in the
    last case the gateway dispatches a new fan-out whose tasks receive [s]
    as [user_feedback]. *)
Theorem next_after_feedback_partition (st : State) (s : string) :
  let st' := apply_update st (wait_user_feedback st s) in
  user_feedback st' = s
  ∧ (next_after_feedback st' = "execute" ↔ s ∈ selectors)
  ∧ (next_after_feedback st' = "cancel" ↔ s ∈ cancel_keywords)
  ∧ (next_after_feedback st' = "retry" ↔ (s ∉ selectors) ∧ (s ∉ cancel_keywords))
  ∧ (∀ db chains o,
      step {| world_db := db; world_chains := chains;
              world_completion := o; world_input := s |}
           (At Node.wait_user_feedback, st)
      = (At (if decide (s ∈ selectors) then Node.execute_query
             else if decide (s ∈ cancel_keywords) then Node.end_on_cancel
             else Node.gateway), st'))
  ∧ (s ∉ selectors → s ∉ cancel_keywords →
     ∀ w w' : World, world_input w = s →
       (run [w; w'] (At Node.wait_user_feedback, st)).1
       = Tasks
           [ MkSend Node.query_agent_1
               {| payload_user_request := user_request st;
                  payload_user_feedback := s |};
             MkSend Node.query_agent_2
               {| payload_user_request := user_request st;
                  payload_user_feedback := s |};
             MkSend Node.query_agent_3
               {| payload_user_request := user_request st;
                  payload_user_feedback := s |} ]).
Proof.
  intros st'.
  assert (Hs : user_feedback st' = s)
    by apply wait_user_feedback_stores_input.
  assert (Hsel : ∀ x, x ∈ selectors → x ∉ cancel_keywords).
  { intros x Hx. unfold selectors in Hx.
    repeat (apply elem_of_cons in Hx as [->|Hx]); try compute_done.
    by apply elem_of_nil in Hx. }
  split_and!.
  - exact Hs.
  - rewrite next_after_feedback_cases, Hs.
    repeat case_decide; split; intros; done.
  - rewrite next_after_feedback_cases, Hs.
    repeat case_decide; split; intros; try done.
    exfalso; by eapply Hsel.
  - rewrite next_after_feedback_cases, Hs.
    repeat case_decide; split; try done; intros [? ?]; done.
  - intros db chains o. cbn [step world_input]. fold st'.
    rewrite next_after_feedback_cases, Hs.
    repeat case_decide; reflexivity.
  - intros Hnsel Hncan w w' Hw.
    unfold run. cbn [foldl step]. rewrite Hw. fold st'.
    rewrite next_after_feedback_cases, Hs.
    rewrite !decide_False by done.
    change (route feedback_targets "retry") with Node.gateway.
    cbn [step fst]. unfold generate_query.
    assert (Hf : user_feedback (apply_update st' (gateway st')) = s)
      by exact Hs.
    assert (Hr : user_request (apply_update st' (gateway st'))
                 = user_request st).
    { subst st'. unfold wait_user_feedback.
      repeat case_decide; reflexivity. }
    rewrite Hf, Hr. reflexivity.
Qed.
End Feedback.

(** ** Execution and the terminals *)

Section Execution.
Context `{PyBuiltins}.

Lemma after_execute_success (x : State) :
  route execute_targets (after_execute x) = Node.end_on_success
  ↔ error_message x = None.
Proof.
  unfold after_execute. destruct (error_message x); vm_compute; split; done.
Qed.

Lemma after_execute_error (x : State) :
  route execute_targets (after_execute x) = Node.end_on_error
  ↔ error_message x ≠ None.
Proof.
  unfold after_execute. destruct (error_message x); vm_compute; split; done.
Qed.

(** C5. When the database call of [execute_query] raises with text [e], the
    node returns normally with [error_message = e] and
    [query_result = None], the conditional edge goes to [end_on_error], and
    that terminal appends its two messages, the second being [e]. *)
Theorem execute_query_fault_reaches_end_on_error
    (w : World) (st : State) (e : string) :
  db_execute_query (world_db w) (selected_query st) = Raise e →
  let c := step w (At Node.execute_query, st) in
  error_message c.2 = Some e
  ∧ query_result c.2 = None
  ∧ c.1 = At Node.end_on_error
  ∧ ∀ w' : World,
      (step w' c).1 = At Node.END
      ∧ messages (step w' c).2
        = messages st ++ [AIMessage "쿼리 실행 오류"; AIMessage e].
Proof.
  intros Hdb c.
  assert (Hc : c = (At Node.end_on_error,
                    apply_update st [ Key_query_result None;
                                      Key_error_message (Some e) ])).
  { subst c. cbn [step]. unfold execute_query. rewrite Hdb. reflexivity. }
  rewrite Hc. split_and!; try reflexivity.
  intros w'. split; reflexivity.
Qed.

(** C6. When the database call of [execute_query] returns [r], the node
    sets [error_message = None] and [query_result = r]; the conditional edge
    goes to [end_on_success], which it does exactly when [error_message] is
    [None]; and the terminal appends the completion notice followed by a
    message whose content is [str(query_result)], that is [r] (and after
    them the refactoring suggestions, when some were stored). *)
Theorem execute_query_success_reaches_end_on_success
    (w : World) (st : State) (r : string) :
  db_execute_query (world_db w) (selected_query st) = Ok r →
  let c := step w (At Node.execute_query, st) in
  error_message c.2 = None
  ∧ query_result c.2 = Some r
  ∧ c.1 = At Node.end_on_success
  ∧ (∀ x : State,
      route execute_targets (after_execute x) = Node.end_on_success
      ↔ error_message x = None)
  ∧ ∀ w' : World,
      (step w' c).1 = At Node.END
      ∧ str_opt (query_result c.2) = r
      ∧ messages (step w' c).2
        = messages st
          ++ [AIMessage "쿼리 실행 완료"; AIMessage (str_opt (query_result c.2))]
          ++ (if truthy (refactoring_suggestion st)
              then [AIMessage (str_list (default [] (refactoring_suggestion st)))]
              else []).
Proof.
  intros Hdb c.
  assert (Hc : c = (At Node.end_on_success,
                    apply_update st [ Key_query_result (Some r);
                                      Key_error_message None ])).
  { subst c. cbn [step]. unfold execute_query. rewrite Hdb. reflexivity. }
  rewrite Hc. split_and!; try reflexivity.
  - apply after_execute_success.
  - intros w'. split_and!; try reflexivity.
    cbn [step snd]. unfold end_on_success; simpl.
    destruct (truthy (refactoring_suggestion st)); reflexivity.
Qed.
End Execution.

(** ** Which candidate a selector picks *)

Section Selection.
Context `{PyBuiltins}.

Lemma find_in_first (hist rest : list (string * QueryData))
    (agent_name : string) (d : QueryData) :
  (∀ entry, entry ∈ hist → entry.1 ≠ agent_name) →
  find_in (hist ++ (agent_name, d) :: rest) agent_name = Some d.
Proof.
  induction hist as [|[agent d'] hist IH]; intros Hhist; simpl.
  - by rewrite decide_True.
  - rewrite decide_False.
    + apply IH. intros entry Hin. apply Hhist. by right.
    + apply (Hhist (agent, d')). by left.
Qed.

(** The selector ["2"] goes on to execution with the query of the first
    [query_agent_2] entry of the list, whatever follows that entry. *)
Lemma selector_2_picks_first_entry (w : World) (st : State)
    (hist rest : list (string * QueryData)) (d : QueryData) :
  world_input w = "2" →
  query_suggestion st = hist ++ ("query_agent_2", d) :: rest →
  (∀ entry, entry ∈ hist → entry.1 ≠ "query_agent_2") →
  (step w (At Node.wait_user_feedback, st)).1 = At Node.execute_query
  ∧ selected_query (step w (At Node.wait_user_feedback, st)).2 = Some (query d).
Proof.
  intros Hw Hqs Hhist. cbn [step]. rewrite Hw. split; [reflexivity|].
  simpl. unfold find_selected_query. by rewrite Hqs, find_in_first.
Qed.
End Selection.

(** ** The refactoring suggestions in the success terminal *)

Section Refactoring.
Context `{PyBuiltins}.

Lemma selectors_inv (s : string) :
  s ∈ selectors → s = "1" ∨ s = "2" ∨ s = "3".
Proof.
  unfold selectors. rewrite !elem_of_cons, elem_of_nil. tauto.
Qed.

Lemma execute_route_inv (st : State) (s : string) :
  next_after_feedback (apply_update st (wait_user_feedback st s)) = "execute" →
  s ∈ selectors.
Proof.
  rewrite next_after_feedback_cases, wait_user_feedback_stores_input.
  repeat case_decide; done.
Qed.

Lemma wait_user_feedback_keeps_refactoring (st : State) (s : string) :
  s ≠ "3" →
  refactoring_suggestion (apply_update st (wait_user_feedback st s))
  = refactoring_suggestion st.
Proof.
  intros Hs. unfold wait_user_feedback.
  repeat case_decide; done.
Qed.

Lemma end_on_success_messages (st : State) :
  messages (apply_update st (end_on_success st))
  = messages st
    ++ [AIMessage "쿼리 실행 완료"; AIMessage (str_opt (query_result st))]
    ++ (if truthy (refactoring_suggestion st)
        then [AIMessage (str_list (default [] (refactoring_suggestion st)))]
        else []).
Proof.
  unfold end_on_success. simpl.
  destruct (truthy (refactoring_suggestion st)); reflexivity.
Qed.

(** C10, as the code has it.  Take a suspended state whose
    [refactoring_suggestion] is the [None] left by the gateway, a resume
    value that the router sends to execution, and a database call that
    returns [r].  Then the run ends after [end_on_success], which appended
    the completion notice and [r], and a third message exactly when the
    resume value was ["3"] and the suggestion list stored by that branch is
    not empty; that third message is [str] of the list.  Every resume value
    other than ["3"] leaves [refactoring_suggestion] untouched. *)
Theorem third_message_iff_selector_3_with_suggestions
    (w1 w2 w3 : World) (st : State) (r : string) :
  refactoring_suggestion st = None →
  next_after_feedback (step w1 (At Node.wait_user_feedback, st)).2 = "execute" →
  db_execute_query (world_db w2)
    (selected_query (step w1 (At Node.wait_user_feedback, st)).2) = Ok r →
  let stored := find_suggestion st "query_agent_3" in
  let c := run [w1; w2; w3] (At Node.wait_user_feedback, st) in
  c.1 = At Node.END
  ∧ refactoring_suggestion c.2
    = (if decide (world_input w1 = "3") then Some stored else None)
  ∧ messages c.2
    = messages st
      ++ [AIMessage "쿼리 실행 완료"; AIMessage r]
      ++ (if decide (world_input w1 = "3" ∧ stored ≠ [])
          then [AIMessage (str_list stored)] else [])
  ∧ (length (messages c.2) = length (messages st) + 3
     ↔ world_input w1 = "3" ∧ stored ≠ [])
  ∧ (length (messages c.2) = length (messages st) + 2
     ↔ ¬ (world_input w1 = "3" ∧ stored ≠ []))
  ∧ (∀ s : string, s ≠ "3" →
       refactoring_suggestion (apply_update st (wait_user_feedback st s))
       = refactoring_suggestion st).
Proof.
  intros Hnone Hexec Hdb stored c.
  assert (Hsel : world_input w1 ∈ selectors)
    by (apply (execute_route_inv st); exact Hexec).
  set (st1 := apply_update st (wait_user_feedback st (world_input w1))) in *.
  assert (H1 : step w1 (At Node.wait_user_feedback, st)
               = (At Node.execute_query, st1)).
  { cbn [step]. fold st1. cbn [snd] in Hexec.
    change (step w1 (At Node.wait_user_feedback, st)).2 with st1 in Hexec.
    rewrite Hexec. reflexivity. }
  rewrite H1 in Hdb. cbn [snd] in Hdb.
  set (st2 := apply_update st1 [ Key_query_result (Some r);
                                 Key_error_message None ]).
  assert (H2 : step w2 (At Node.execute_query, st1)
               = (At Node.end_on_success, st2)).
  { cbn [step]. unfold execute_query. rewrite Hdb. reflexivity. }
  assert (Hc : c = (At Node.END, apply_update st2 (end_on_success st2))).
  { subst c. unfold run. cbn [foldl]. rewrite H1, H2. reflexivity. }
  assert (Href : refactoring_suggestion st2
                 = if decide (world_input w1 = "3") then Some stored else None).
  { change (refactoring_suggestion st2) with (refactoring_suggestion st1).
    case_decide as Hs.
    - subst st1. rewrite Hs. reflexivity.
    - subst st1. rewrite wait_user_feedback_keeps_refactoring by done.
      exact Hnone. }
  assert (Hmsg : messages c.2
    = messages st
      ++ [AIMessage "쿼리 실행 완료"; AIMessage r]
      ++ (if decide (world_input w1 = "3" ∧ stored ≠ [])
          then [AIMessage (str_list stored)] else [])).
  { rewrite Hc. cbn [snd]. rewrite end_on_success_messages, Href.
    assert (Hm : messages st2 = messages st).
    { change (messages st2) with (messages st1). subst st1.
      unfold wait_user_feedback. repeat case_decide; reflexivity. }
    rewrite Hm. change (query_result st2) with (Some r). cbn [str_opt].
    do 2 f_equal.
    destruct (decide (world_input w1 = "3")) as [Hs|Hs].
    - destruct stored as [|x xs]; simpl.
      + rewrite decide_False by (intros [_ ?]; done). reflexivity.
      + rewrite decide_True by done. reflexivity.
    - simpl. rewrite decide_False by (intros [? _]; done). reflexivity. }
  split_and!.
  - by rewrite Hc.
  - rewrite Hc. exact Href.
  - exact Hmsg.
  - rewrite Hmsg, !length_app. case_decide; simpl; split; (done || lia).
  - rewrite Hmsg, !length_app. case_decide; simpl; split; (done || lia).
  - apply wait_user_feedback_keeps_refactoring.
Qed.
End Refactoring.

(** ** Fan-out and join *)

Section FanOut.
Context `{PyBuiltins}.

Lemma reorder_perm {A} (o : Order) (l : list A) : reorder o l ≡ₚ l.
Proof.
  destruct l as [|a [|b [|c [|d l]]]]; try reflexivity.
  destruct o; simpl; solve_Permutation.
Qed.

Lemma query_agent_1_update (w : World) (st : State) :
  query_agent_1 (world_db w) (world_chains w)
    {| payload_user_request := user_request st;
       payload_user_feedback := user_feedback st |}
  = [ Key_query_suggestion [entry_1 (chain_outcome w basic_chain st)] ].
Proof.
  unfold query_agent_1, chain_outcome, entry_1. simpl.
  destruct (get_query_params _ _ _ _) as [params|e]; simpl; [|done].
  destruct (basic_chain _ params); reflexivity.
Qed.

Lemma query_agent_2_update (w : World) (st : State) :
  query_agent_2 (world_db w) (world_chains w)
    {| payload_user_request := user_request st;
       payload_user_feedback := user_feedback st |}
  = [ Key_query_suggestion [entry_2 (chain_outcome w optimized_chain st)] ].
Proof.
  unfold query_agent_2, chain_outcome, entry_2. simpl.
  destruct (get_query_params _ _ _ _) as [params|e]; simpl; [|done].
  destruct (optimized_chain _ params); reflexivity.
Qed.

Lemma query_agent_3_update (w : World) (st : State) :
  query_agent_3 (world_db w) (world_chains w)
    {| payload_user_request := user_request st;
       payload_user_feedback := user_feedback st |}
  = [ Key_query_suggestion [entry_3 (chain_outcome w advanced_chain st)] ].
Proof.
  unfold query_agent_3, chain_outcome, entry_3. simpl.
  destruct (get_query_params _ _ _ _) as [params|e]; simpl; [|done].
  destruct (advanced_chain _ params); reflexivity.
Qed.

(** One gateway step and one fan-out step: the control is at the join and
    the three entries of this cycle sit at the end of the list. *)
Lemma fan_out_join (w0 w : World) (st : State) :
  (run [w0; w] (At Node.gateway, st)).1 = At Node.aggregate
  ∧ query_suggestion (run [w0; w] (At Node.gateway, st)).2
    = query_suggestion st ++ cycle_entries w st.
Proof.
  unfold run. cbn [foldl step generate_query fmap list_fmap run_task].
  change (user_request (apply_update st (gateway st))) with (user_request st).
  change (user_feedback (apply_update st (gateway st))) with (user_feedback st).
  rewrite query_agent_1_update, query_agent_2_update, query_agent_3_update.
  split; [reflexivity|]. unfold cycle_entries.
  destruct (world_completion w); simpl;
    rewrite app_nil_r, <- !app_assoc; reflexivity.
Qed.

(** C2. After the gateway has dispatched, the join finds exactly three new
    entries at the end of [query_suggestion], one for each of
    [query_agent_1], [query_agent_2], [query_agent_3], in the order the
    tasks completed; an agent whose chain raised with text [e] still
    contributed its entry, with the query ["-- Error: " + e]. *)
Theorem fan_out_joins_three_entries (w0 w : World) (st : State) :
  let c := run [w0; w] (At Node.gateway, st) in
  c.1 = At Node.aggregate
  ∧ ∃ d1 d2 d3 : QueryData,
      let new := reorder (world_completion w)
                   [ ("query_agent_1", d1); ("query_agent_2", d2);
                     ("query_agent_3", d3) ] in
      query_suggestion c.2 = query_suggestion st ++ new
      ∧ length new = 3
      ∧ new ≡ₚ [ ("query_agent_1", d1); ("query_agent_2", d2);
                 ("query_agent_3", d3) ]
      ∧ match chain_outcome w basic_chain st with
        | Ok response => query d1 = resp_query response
        | Raise e => query d1 = "-- Error: " +:+ e
        end
      ∧ match chain_outcome w optimized_chain st with
        | Ok response => query d2 = resp_query response
        | Raise e => query d2 = "-- Error: " +:+ e
        end
      ∧ match chain_outcome w advanced_chain st with
        | Ok response => query d3 = resp_query response
        | Raise e => query d3 = "-- Error: " +:+ e
        end.
Proof.
  intros c. destruct (fan_out_join w0 w st) as [Hctl Hqs].
  split; [exact Hctl|].
  exists (entry_1 (chain_outcome w basic_chain st)).2,
         (entry_2 (chain_outcome w optimized_chain st)).2,
         (entry_3 (chain_outcome w advanced_chain st)).2.
  split_and!.
  - exact Hqs.
  - by destruct (world_completion w).
  - apply reorder_perm.
  - by destruct (chain_outcome w basic_chain st).
  - by destruct (chain_outcome w optimized_chain st).
  - by destruct (chain_outcome w advanced_chain st).
Qed.
End FanOut.

(** ** The display trimming *)

Section Display.
Context `{PyBuiltins}.

Lemma latest_suggestions_lookup (l : list (string * QueryData))
    (m : gmap string QueryData) (a : string) :
  foldl (λ latest '(agent_name, query_data),
           <[agent_name := query_data]> latest) m l !! a
  = match latest_of l a with
    | Some d => Some d
    | None => m !! a
    end.
Proof.
  unfold latest_of.
  induction l as [|[agent d] l IH] using rev_ind; [reflexivity|].
  rewrite foldl_snoc, reverse_snoc, lookup_insert. cbn [find_in].
  case_decide; [reflexivity | exact IH].
Qed.

Lemma process_query_suggestions_spec (qs : list (string * QueryData)) :
  _process_query_suggestions qs
  = omap (λ a, pair a <$> latest_of (last_three qs) a) agent_order.
Proof.
  destruct qs as [|entry qs]; [reflexivity|].
  unfold _process_query_suggestions.
  set (l := entry :: qs).
  assert (Hrecent : (if decide (3 < length l)
                     then drop (length l - 3) l else l) = last_three l).
  { unfold last_three. case_decide as Hlen; [reflexivity|].
    replace (length l - 3) with 0 by lia. reflexivity. }
  rewrite Hrecent. unfold agent_order. cbn [foldl omap list_omap].
  rewrite !latest_suggestions_lookup, !lookup_empty.
  destruct (latest_of (last_three l) "query_agent_1");
    destruct (latest_of (last_three l) "query_agent_2");
    destruct (latest_of (last_three l) "query_agent_3"); reflexivity.
Qed.

Lemma last_three_app (hist new : list (string * QueryData)) :
  length new = 3 → last_three (hist ++ new) = new.
Proof.
  intros Hlen. unfold last_three.
  apply drop_app_length'. rewrite length_app. lia.
Qed.

(** C8. The trimming looks only at the last three entries of the list, keeps
    for each producer the latest of those, and lists them in the order
    [query_agent_1], [query_agent_2], [query_agent_3]: never more than three
    entries, and after a fan-out exactly the three candidates of that cycle,
    whatever the earlier cycles left in the list and whatever the order in
    which the tasks completed. *)
Theorem process_query_suggestions_shows_last_cycle :
  (∀ qs : list (string * QueryData),
      _process_query_suggestions qs
      = omap (λ a, pair a <$> latest_of (last_three qs) a) agent_order
      ∧ last_three qs `suffix_of` qs
      ∧ length (last_three qs) = length qs `min` 3
      ∧ length (_process_query_suggestions qs) ≤ 3)
  ∧ (∀ (hist : list (string * QueryData)) (o : Order) (d1 d2 d3 : QueryData),
      _process_query_suggestions
        (hist ++ reorder o [ ("query_agent_1", d1); ("query_agent_2", d2);
                             ("query_agent_3", d3) ])
      = [ ("query_agent_1", d1); ("query_agent_2", d2); ("query_agent_3", d3) ])
  ∧ (∀ (w0 w : World) (st : State),
      _process_query_suggestions
        (query_suggestion (run [w0; w] (At Node.gateway, st)).2)
      = [ entry_1 (chain_outcome w basic_chain st);
          entry_2 (chain_outcome w optimized_chain st);
          entry_3 (chain_outcome w advanced_chain st) ]).
Proof.
  assert (Hcycle : ∀ hist o (d1 d2 d3 : QueryData),
    _process_query_suggestions
      (hist ++ reorder o [ ("query_agent_1", d1); ("query_agent_2", d2);
                           ("query_agent_3", d3) ])
    = [ ("query_agent_1", d1); ("query_agent_2", d2); ("query_agent_3", d3) ]).
  { intros hist o d1 d2 d3.
    rewrite process_query_suggestions_spec, last_three_app
      by (by destruct o).
    destruct o; reflexivity. }
  split_and!.
  - intros qs. split_and!.
    + apply process_query_suggestions_spec.
    + apply suffix_drop.
    + unfold last_three. rewrite length_drop. lia.
    + rewrite process_query_suggestions_spec.
      unfold agent_order. cbn [omap list_omap].
      destruct (latest_of (last_three qs) "query_agent_1");
        destruct (latest_of (last_three qs) "query_agent_2");
        destruct (latest_of (last_three qs) "query_agent_3"); simpl; lia.
  - exact Hcycle.
  - intros w0 w st.
    destruct (fan_out_join w0 w st) as [_ ->].
    unfold cycle_entries, entry_1, entry_2, entry_3.
    destruct (chain_outcome w advanced_chain st); apply Hcycle.
Qed.
End Display.

(** * Concrete runs *)

Import Examples.

(** C1. A first cycle, a refinement feedback, a second cycle, then the
    selector ["2"]: the run goes on to [execute_query], but [selected_query]
    holds the [query_agent_2] candidate of the FIRST cycle, while the latest
    [query_agent_2] entry of the list, which is also the one the display
    layer shows as option 2, is the candidate of the second cycle. *)
Theorem selector_2_after_retry_picks_first_cycle :
  let c := run (H:=quoting) retry_then_pick_2 (start "how many orders?") in
  c.1 = At Node.execute_query
  ∧ selected_query c.2 = Some "SELECT COUNT(*) FROM orders"
  ∧ query <$> latest_of (query_suggestion c.2) "query_agent_2"
    = Some "SELECT COUNT(*) FROM orders WHERE total > 0"
  ∧ _process_query_suggestions (query_suggestion c.2) !! 1
    = Some ("query_agent_2",
            {| query := "SELECT COUNT(*) FROM orders WHERE total > 0";
               suggestion := None |}).
Proof. vm_compute. split_and!; reflexivity. Qed.

(** A refinement feedback at the suspension after the first cycle. *)
Lemma next_after_feedback_partition_witness :
  let s := "only paid orders" in
  let w := world db_ok chains_first O123 s in
  (s ∉ selectors) ∧ (s ∉ cancel_keywords)
  ∧ (run (H:=quoting) [w; w] (At Node.wait_user_feedback, suspended_first)).1
    = Tasks
        [ MkSend Node.query_agent_1
            {| payload_user_request := "how many orders?";
               payload_user_feedback := s |};
          MkSend Node.query_agent_2
            {| payload_user_request := "how many orders?";
               payload_user_feedback := s |};
          MkSend Node.query_agent_3
            {| payload_user_request := "how many orders?";
               payload_user_feedback := s |} ].
Proof.
  intros s w.
  assert (Hsel : s ∉ selectors) by compute_done.
  assert (Hcan : s ∉ cancel_keywords) by compute_done.
  split_and!; [exact Hsel | exact Hcan |].
  pose proof (next_after_feedback_partition (H:=quoting) suspended_first s)
    as (_ & _ & _ & _ & _ & Hfan).
  exact (Hfan Hsel Hcan w w eq_refl).
Defined.

(** The database raises on the query picked with ["1"]. *)
Lemma execute_query_fault_witness :
  let w := world db_failing chains_first O123 "1" in
  let c := step (H:=quoting) w (At Node.execute_query, picked_1) in
  db_execute_query (world_db w) (selected_query picked_1)
  = Raise "no such table: orders"
  ∧ error_message c.2 = Some "no such table: orders"
  ∧ c.1 = At Node.end_on_error.
Proof.
  intros w c.
  pose proof (execute_query_fault_reaches_end_on_error (H:=quoting)
                w picked_1 "no such table: orders" eq_refl) as (He & _ & Hc & _).
  split_and!; [reflexivity | exact He | exact Hc].
Defined.

(** The database answers the query picked with ["1"]. *)
Lemma execute_query_success_witness :
  let w := world db_ok chains_first O123 "1" in
  let c := step (H:=quoting) w (At Node.execute_query, picked_1) in
  db_execute_query (world_db w) (selected_query picked_1)
  = Ok "[(42,)] for SELECT 1"
  ∧ query_result c.2 = Some "[(42,)] for SELECT 1"
  ∧ c.1 = At Node.end_on_success.
Proof.
  intros w c.
  pose proof (execute_query_success_reaches_end_on_success (H:=quoting)
                w picked_1 "[(42,)] for SELECT 1" eq_refl) as (_ & Hr & Hc & _).
  split_and!; [reflexivity | exact Hr | exact Hc].
Defined.

(** The selector ["3"] on a cycle whose agent 3 did suggest something. *)
Lemma third_message_witness :
  let w := world db_ok chains_first O123 "3" in
  let c := run (H:=quoting) [w; w; w] (At Node.wait_user_feedback, suspended_first) in
  refactoring_suggestion suspended_first = None
  ∧ next_after_feedback
      (step (H:=quoting) w (At Node.wait_user_feedback, suspended_first)).2
    = "execute"
  ∧ c.1 = At Node.END
  ∧ refactoring_suggestion c.2 = Some ["add an index"].
Proof.
  intros w c.
  pose proof (third_message_iff_selector_3_with_suggestions (H:=quoting)
                w w w suspended_first
                "[(42,)] for SELECT COUNT(id) FROM orders"
                eq_refl eq_refl eq_refl) as (Hc & Hr & _).
  split_and!; [reflexivity | reflexivity | exact Hc | exact Hr].
Defined.

(** C10 as stated fails: with the selector ["3"] on a cycle whose agent 3
    returned no suggestion, the run ends in [end_on_success] with the two
    standard messages and no third one. *)
Lemma selector_3_without_third_message :
  let w := world db_ok chains_second O123 "3" in
  let st := suspended_no_suggestion in
  let c := run (H:=quoting) [w; w; w] (At Node.wait_user_feedback, st) in
  c.1 = At Node.END
  ∧ error_message c.2 = None
  ∧ world_input w = "3"
  ∧ messages c.2
    = messages st
      ++ [ AIMessage "쿼리 실행 완료";
           AIMessage "[(42,)] for SELECT COUNT(id) FROM orders WHERE total > 0" ]
  ∧ ¬ (length (messages c.2) = length (messages st) + 3 ↔ world_input w = "3").
Proof.
  vm_compute. split_and!; try reflexivity.
  intros [_ Hback]. specialize (Hback eq_refl). discriminate.
Qed.

(** * Further properties *)

(** ** Substrings *)

Section Substrings.
Implicit Types (s sub a b : string).

Lemma string_app_cons c a b : String c a +:+ b = String c (a +:+ b).
Proof. reflexivity. Qed.

Lemma string_app_nil_l a : "" +:+ a = a.
Proof. reflexivity. Qed.

Lemma string_app_assoc a b s : (a +:+ b) +:+ s = a +:+ b +:+ s.
Proof.
  induction a as [|c a IH]; [reflexivity|].
  by rewrite !string_app_cons, IH.
Qed.

Lemma string_prefix_app sub s :
  String.prefix sub s = true ↔ ∃ b, s = sub +:+ b.
Proof.
  revert s. induction sub as [|c sub IH]; intros s.
  - destruct s; simpl; split; eauto.
  - destruct s as [|c' s]; simpl.
    + split; [done | intros [b ?]; done].
    + destruct (ascii_dec c c') as [->|Hne].
      * rewrite IH. split; intros [b Hb]; exists b.
        -- by rewrite string_app_cons, Hb.
        -- rewrite string_app_cons in Hb. congruence.
      * split; [done | intros [b Hb]].
        rewrite string_app_cons in Hb. congruence.
Qed.

Lemma contains_app sub s :
  contains sub s = true ↔ ∃ a b, s = a +:+ sub +:+ b.
Proof.
  induction s as [|c s IH]; cbn [contains].
  - rewrite orb_false_r, string_prefix_app. split.
    + intros [b Hb]. by exists "", b.
    + intros (a & b & Hab). destruct a; [by exists b|done].
  - rewrite orb_true_iff, IH, string_prefix_app. split.
    + intros [[b Hb] | (a & b & Hab)].
      * by exists "", b.
      * exists (String c a), b. by rewrite string_app_cons, Hab.
    + intros (a & b & Hab). destruct a as [|c' a].
      * left. by exists b.
      * right. exists a, b. rewrite string_app_cons in Hab. congruence.
Qed.

(** A text that contains [a +:+ sub] contains [sub]. *)
Lemma contains_longer a sub s :
  contains (a +:+ sub) s = true → contains sub s = true.
Proof.
  rewrite !contains_app. intros (x & y & ->).
  exists (x +:+ a), y. by rewrite !string_app_assoc.
Qed.
End Substrings.

(** ** [ErrorHandler] *)

Section ErrorHandlerProperties.
Context `{PyText}.

Lemma any_in_cons keyword keywords s :
  any_in (keyword :: keywords) s = contains keyword s || any_in keywords s.
Proof. reflexivity. Qed.

Lemma any_in_app keywords more s :
  any_in (keywords ++ more) s = any_in keywords s || any_in more s.
Proof. apply existsb_app. Qed.

Lemma database_keywords s :
  any_in ["mysql"; "database"; "connection"; "sql"] s
  = any_in ["database"; "connection"; "sql"] s.
Proof.
  rewrite !any_in_cons.
  destruct (contains "mysql" s) eqn:Hmy; [|reflexivity].
  apply (contains_longer "my" "sql") in Hmy. rewrite Hmy.
  by rewrite !orb_true_r.
Qed.

(** X1. Database keywords are looked for first: an error whose lowered text
    mentions [database], [connection] or [sql] is a [DATABASE_ERROR] whatever
    else it mentions, and no other error is (the keyword [mysql] adds
    nothing, every text with [mysql] has [sql]); the category is
    [UNKNOWN_ERROR] exactly when none of the keywords of the five lists
    occurs. *)
Theorem categorize_error_database_first (error : string) :
  let error_str := str_lower error in
  (categorize_error error = DATABASE_ERROR
   ↔ any_in ["database"; "connection"; "sql"] error_str = true)
  ∧ (categorize_error error = UNKNOWN_ERROR
     ↔ any_in [ "database"; "connection"; "sql";
                "openai"; "api"; "token"; "model";
                "workflow"; "state"; "interrupt";
                "validation"; "invalid"; "empty";
                "config"; "setting"; "file not found" ] error_str = false).
Proof.
  intros error_str. unfold categorize_error. fold error_str.
  rewrite database_keywords.
  change (any_in _ error_str = false)
    with (any_in (["database"; "connection"; "sql"]
                  ++ ["openai"; "api"; "token"; "model"]
                  ++ ["workflow"; "state"; "interrupt"]
                  ++ ["validation"; "invalid"; "empty"]
                  ++ ["config"; "setting"; "file not found"]) error_str
          = false).
  rewrite !any_in_app.
  destruct (any_in ["database"; "connection"; "sql"] error_str);
    [split; split; done|].
  destruct (any_in ["openai"; "api"; "token"; "model"] error_str);
    [split; split; done|].
  destruct (any_in ["workflow"; "state"; "interrupt"] error_str);
    [split; split; done|].
  destruct (any_in ["validation"; "invalid"; "empty"] error_str);
    [split; split; done|].
  destruct (any_in ["config"; "setting"; "file not found"] error_str);
    split; split; done.
Qed.
End ErrorHandlerProperties.

Section UserMessages.
Context `{PyText}.

Lemma getitem_default (t : ErrorType) :
  ∃ m, getitem (ERROR_MESSAGES t) "default" = Ok m
       ∧ m ∈ (ERROR_MESSAGES t).*2.
Proof.
  destruct t; eexists; (split; [reflexivity|]); simpl; set_solver.
Qed.

Lemma specific_message_elem (items : list (string * string)) (s m : string) :
  specific_message items s = Some m →
  m ∈ items.*2
  ∧ ∃ keyword, (keyword, m) ∈ items ∧ keyword ≠ "default"
               ∧ contains keyword s = true.
Proof.
  induction items as [|[keyword message] items IH]; simpl; [done|].
  destruct (bool_decide (keyword ≠ "default")) eqn:Hk; simpl.
  - destruct (contains keyword s) eqn:Hc.
    + intros [= ->]. split; [by left|].
      exists keyword. split_and!; [by left | | done].
      by apply bool_decide_eq_true in Hk.
    + intros Hm. destruct (IH Hm) as (Hin & k & Hk' & Hne & Hc').
      split; [by right|]. exists k. split_and!; [by right | done | done].
  - intros Hm. destruct (IH Hm) as (Hin & k & Hk' & Hne & Hc').
    split; [by right|]. exists k. split_and!; [by right | done | done].
Qed.

Lemma get_user_message_elem (error : string) (error_type : option ErrorType) :
  ∃ m, get_user_message error error_type = Ok m
       ∧ m ∈ (ERROR_MESSAGES
                (default (categorize_error error) error_type)).*2.
Proof.
  unfold get_user_message.
  set (t := match error_type with
            | Some t => t
            | None => categorize_error error
            end).
  replace (default (categorize_error error) error_type) with t
    by (by destruct error_type).
  destruct (specific_message (ERROR_MESSAGES t) (str_lower error)) as [m|] eqn:Hm.
  - exists m. split; [reflexivity|]. by eapply specific_message_elem.
  - apply getitem_default.
Qed.

(** X2. [get_user_message] never fails with a [KeyError]: whatever the error
    and whether the type is given or computed, it returns one of the
    messages listed for that type; and when the message is not the default
    one of the type, it is listed under a keyword that does occur in the
    lowered text of the error. *)
Theorem get_user_message_total (error : string) (error_type : option ErrorType) :
  let messages :=
    ERROR_MESSAGES (default (categorize_error error) error_type) in
  ∃ m, get_user_message error error_type = Ok m
       ∧ m ∈ messages.*2
       ∧ (getitem messages "default" = Ok m
          ∨ ∃ keyword, (keyword, m) ∈ messages ∧ keyword ≠ "default"
                       ∧ contains keyword (str_lower error) = true).
Proof.
  intros messages.
  destruct (get_user_message_elem error error_type) as (m & Hm & Hin).
  exists m. split_and!; [exact Hm | exact Hin |].
  revert Hm. unfold get_user_message.
  replace (match error_type with
           | Some t => t
           | None => categorize_error error
           end) with (default (categorize_error error) error_type)
    by (by destruct error_type).
  fold messages.
  destruct (specific_message messages (str_lower error)) as [m'|] eqn:Hs.
  - intros [= ->]. right. by eapply specific_message_elem.
  - intros Hdefault. by left.
Qed.

Lemma categorize_configuration (error : string) :
  categorize_error error = CONFIGURATION_ERROR →
  contains "invalid" (str_lower error) = false.
Proof.
  unfold categorize_error.
  destruct (any_in ["mysql"; "database"; "connection"; "sql"] _); [done|].
  destruct (any_in ["openai"; "api"; "token"; "model"] _); [done|].
  destruct (any_in ["workflow"; "state"; "interrupt"] _); [done|].
  destruct (any_in ["validation"; "invalid"; "empty"] _) eqn:Hval; [done|].
  intros _. rewrite !any_in_cons in Hval.
  destruct (contains "invalid" (str_lower error)); [|done].
  by rewrite orb_true_r in Hval.
Qed.

(** X3. When the type is left to [categorize_error], the message listed under
    [CONFIGURATION_ERROR] for the keyword [invalid] is never the answer: a
    text with [invalid] in it is categorized before the configuration
    keywords are looked at. *)
Theorem configuration_invalid_message_unreachable (error : string) :
  get_user_message error None ≠ Ok "설정값이 유효하지 않습니다.".
Proof.
  destruct (get_user_message_elem error None) as (m & Hm & Hin).
  rewrite Hm. intros [= ->]. simpl in Hin.
  unfold get_user_message in Hm.
  destruct (categorize_error error) eqn:Hcat;
    try (revert Hin; compute_done).
  apply categorize_configuration in Hcat.
  revert Hm. cbn [ERROR_MESSAGES specific_message].
  rewrite Hcat, andb_false_r.
  destruct (_ && _); simpl; [|destruct (contains "missing" _)];
    intros Heq; discriminate Heq.
Qed.
End UserMessages.

(** ** [SafeExecutor] and the decorator *)

Section SafeExecutorProperties.
Context `{PyText} {D A : Type}.
Variable format_exc : string.
Variable time_sleep : D → result ().

Lemma create_error_info_ok (error : string) (context : option string) :
  ∃ info, create_error_info format_exc error context = Ok info
          ∧ message info = error
          ∧ error_type info = categorize_error error.
Proof.
  unfold create_error_info.
  destruct (get_user_message_elem error (Some (categorize_error error)))
    as (m & -> & _).
  eexists. split; [reflexivity|]. split; reflexivity.
Qed.

Lemma log_error_ok (error : string) (context : option string) :
  ∃ dbg, log_error (D:=D) format_exc error context
         = ([ Logged "error"
                ("Error in " +:+ str_opt context +:+ ": " +:+ error);
              Logged "debug" dbg ], Ok ()).
Proof.
  unfold log_error.
  destruct (create_error_info_ok error context) as (info & -> & Hmsg & _).
  simpl. rewrite Hmsg. eexists. reflexivity.
Qed.

Lemma retry_loop_cons (func : nat → result A) (max_retries : Z) (delay : D)
    (context : option string) (first : Z) (len : nat) (calls : nat) :
  retry_loop format_exc time_sleep func max_retries delay context
    (seqZ first (Z.of_nat (S len))) calls
  = eff_try
      (eff_bind ([Called], func calls) (λ a, eff_ret (Some a)))
      (λ e,
         if decide (first = max_retries - 1)%Z
         then eff_bind (log_error format_exc e context) (λ _, eff_raise e)
         else
           eff_bind
             (eff_log "warning"
                ("Attempt " +:+ pretty (first + 1)%Z +:+ " failed in "
                 +:+ str_opt context +:+ ": " +:+ e))
             (λ _, eff_bind ([Slept delay], time_sleep delay)
                (λ _, retry_loop format_exc time_sleep func max_retries delay
                        context (seqZ (first + 1) (Z.of_nat len)) (S calls)))).
Proof.
  rewrite seqZ_cons by lia.
  replace (Z.pred (Z.of_nat (S len))) with (Z.of_nat len) by lia.
  replace (Z.succ first) with (first + 1)%Z by lia.
  reflexivity.
Qed.

(** Calls [first], ..., [first + k - 1] fail and call [first + k] succeeds,
    with more than [k] attempts left. *)
Lemma retry_loop_success (func : nat → result A) (errs : nat → string)
    (delay : D) (context : option string) (a : A) (k : nat) :
  time_sleep delay = Ok () →
  ∀ first len : nat,
    k < len →
    (∀ i, i < k → func (first + i) = Raise (errs (first + i))) →
    func (first + k) = Ok a →
    retry_loop format_exc time_sleep func (Z.of_nat (first + len)) delay context
      (seqZ (Z.of_nat first) (Z.of_nat len)) first
    = (failed_attempts errs delay context first k ++ [Called], Ok (Some a)).
Proof.
  intros Hsleep. induction k as [|k IH]; intros first len Hlen Hfail Hok.
  - destruct len as [|len]; [lia|]. rewrite retry_loop_cons.
    rewrite Nat.add_0_r in Hok. rewrite Hok. reflexivity.
  - destruct len as [|len]; [lia|]. rewrite retry_loop_cons.
    pose proof (Hfail 0 ltac:(lia)) as Hfirst.
    rewrite Nat.add_0_r in Hfirst. rewrite Hfirst. cbn [eff_bind eff_try].
    rewrite decide_False by lia.
    replace (Z.of_nat first + 1)%Z with (Z.of_nat (S first)) by lia.
    replace (Z.of_nat (first + S len)) with (Z.of_nat (S first + len)) by lia.
    rewrite (IH (S first) len).
    + unfold eff_log. cbn [eff_bind]. rewrite Hsleep. cbn [eff_bind].
      cbn [failed_attempts]. unfold retry_warning.
      replace (Z.of_nat first + 1)%Z with (Z.of_nat (S first)) by lia.
      reflexivity.
    + lia.
    + intros i Hi. replace (S first + i) with (first + S i) by lia.
      apply Hfail. lia.
    + replace (S first + k) with (first + S k) by lia. exact Hok.
Qed.

(** All the [len] attempts that are left fail. *)
Lemma retry_loop_exhausted (func : nat → result A) (errs : nat → string)
    (delay : D) (context : option string) :
  time_sleep delay = Ok () →
  ∀ len first : nat,
    (∀ i, i < S len → func (first + i) = Raise (errs (first + i))) →
    ∃ dbg,
      retry_loop format_exc time_sleep func (Z.of_nat (first + S len)) delay
        context (seqZ (Z.of_nat first) (Z.of_nat (S len))) first
      = (failed_attempts errs delay context first len
         ++ [ Called;
              Logged "error"
                ("Error in " +:+ str_opt context +:+ ": "
                 +:+ errs (first + len));
              Logged "debug" dbg ],
         Raise (errs (first + len))).
Proof.
  intros Hsleep. induction len as [|len IH]; intros first Hfail.
  - rewrite retry_loop_cons.
    pose proof (Hfail 0 ltac:(lia)) as Hfirst.
    rewrite Nat.add_0_r in Hfirst. rewrite Hfirst, !Nat.add_0_r.
    cbn [eff_bind eff_try].
    rewrite decide_True by lia.
    destruct (log_error_ok (errs first) context) as [dbg ->].
    exists dbg. reflexivity.
  - rewrite retry_loop_cons.
    pose proof (Hfail 0 ltac:(lia)) as Hfirst.
    rewrite Nat.add_0_r in Hfirst. rewrite Hfirst. cbn [eff_bind eff_try].
    rewrite decide_False by lia.
    replace (Z.of_nat first + 1)%Z with (Z.of_nat (S first)) by lia.
    replace (Z.of_nat (first + S (S len)))
      with (Z.of_nat (S first + S len)) by lia.
    destruct (IH (S first)) as [dbg ->].
    { intros i Hi. replace (S first + i) with (first + S i) by lia.
      apply Hfail. lia. }
    exists dbg.
    unfold eff_log. cbn [eff_bind]. rewrite Hsleep. cbn [eff_bind].
    cbn [failed_attempts]. unfold retry_warning.
    replace (Z.of_nat first + 1)%Z with (Z.of_nat (S first)) by lia.
    replace (S first + len) with (first + S len) by lia.
    reflexivity.
Qed.

(** X4. With [max_retries] zero or negative the function is not called at all
    and the answer is [None]. *)
Theorem execute_with_retry_no_attempt (func : nat → result A)
    (max_retries : Z) (delay : D) (context : option string) :
  (max_retries ≤ 0)%Z →
  execute_with_retry format_exc time_sleep func max_retries delay context
  = ([], Ok None).
Proof.
  intros Hmax. unfold execute_with_retry.
  replace (seqZ 0 max_retries) with (@nil Z); [reflexivity|].
  symmetry. apply seqZ_nil. lia.
Qed.

(** X5. When the first [k] calls fail and call number [k] returns [a], with
    [k < max_retries] and a delay that [time.sleep] accepts, the answer is
    [a]; the function was called [k + 1] times, and each failure was followed
    by one warning and one sleep, nothing else. *)
Theorem execute_with_retry_first_success (func : nat → result A)
    (errs : nat → string) (max_retries : Z) (delay : D)
    (context : option string) (a : A) (k : nat) :
  time_sleep delay = Ok () →
  (Z.of_nat k < max_retries)%Z →
  (∀ i, i < k → func i = Raise (errs i)) →
  func k = Ok a →
  execute_with_retry format_exc time_sleep func max_retries delay context
  = (failed_attempts errs delay context 0 k ++ [Called], Ok (Some a)).
Proof.
  intros Hsleep Hk Hfail Hok. unfold execute_with_retry.
  pose proof (retry_loop_success func errs delay context a k Hsleep
                0 (Z.to_nat max_retries)) as Hloop.
  rewrite !Nat.add_0_l in Hloop.
  rewrite Z2Nat.id in Hloop by lia.
  apply Hloop; [lia | exact Hfail | exact Hok].
Qed.

(** X6. When every one of the [max_retries >= 1] calls fails, the exception of
    the LAST call is raised; the function was called [max_retries] times,
    with a warning and a sleep after each failure but the last, which is
    logged as an error instead. *)
Theorem execute_with_retry_exhausted (func : nat → result A)
    (errs : nat → string) (max_retries : Z) (delay : D)
    (context : option string) :
  time_sleep delay = Ok () →
  (0 < max_retries)%Z →
  (∀ i, (Z.of_nat i < max_retries)%Z → func i = Raise (errs i)) →
  let last := Z.to_nat (max_retries - 1) in
  ∃ dbg,
    execute_with_retry format_exc time_sleep func max_retries delay context
    = (failed_attempts errs delay context 0 last
       ++ [ Called;
            Logged "error"
              ("Error in " +:+ str_opt context +:+ ": " +:+ errs last);
            Logged "debug" dbg ],
       Raise (errs last)).
Proof.
  intros Hsleep Hmax Hfail last. unfold execute_with_retry.
  destruct (retry_loop_exhausted func errs delay context Hsleep last 0)
    as [dbg Hloop].
  { intros i Hi. apply Hfail. lia. }
  exists dbg. rewrite !Nat.add_0_l in Hloop.
  replace (Z.of_nat (S last)) with max_retries in Hloop by lia.
  exact Hloop.
Qed.


(** X8. The decorator changes nothing about the outcome: the wrapped function
    returns what the function returns and raises the very exception the
    function raises, whatever [error_type] and [context] were given. *)
Theorem handle_exceptions_transparent (error_type : option ErrorType)
    (context : option string) (name : string) (func : result A) :
  (handle_exceptions (D:=D) format_exc error_type context name func).2 = func.
Proof.
  unfold handle_exceptions. destruct func as [a|e]; simpl; [reflexivity|].
  destruct (log_error_ok e
              (Some match context with
                    | Some (String c rest) => String c rest
                    | _ => name
                    end)) as [dbg ->].
  destruct (create_error_info_ok e context) as (info & -> & _).
  reflexivity.
Qed.
End SafeExecutorProperties.

(** ** [create_safe_dict] *)

Section SafeDict.
Context {V : Type}.
Implicit Types (data : gmap string V) (safe_keys : list string).

Lemma create_safe_dict_lookup data safe_keys (key : string) :
  create_safe_dict data safe_keys !! key
  = if decide (key ∈ safe_keys) then data !! key else None.
Proof.
  unfold create_safe_dict.
  induction safe_keys as [|k safe_keys IH] using rev_ind.
  - by rewrite decide_False by apply not_elem_of_nil.
  - rewrite foldl_snoc.
    destruct (decide (key = k)) as [->|Hne].
    + rewrite decide_True by (apply elem_of_app; right; by left).
      destruct (data !! k) as [v|] eqn:Hk.
      * by rewrite lookup_insert_eq.
      * rewrite IH. by case_decide.
    + assert (Hstep : ∀ m : gmap string V,
                match data !! k with
                | Some v => <[k:=v]> m
                | None => m
                end !! key = m !! key).
      { intros m. destruct (data !! k); [by rewrite lookup_insert_ne|done]. }
      rewrite Hstep, IH.
      destruct (decide (key ∈ safe_keys)) as [Hin|Hnin].
      * by rewrite decide_True by (apply elem_of_app; by left).
      * rewrite decide_False; [done|].
        intros [?|Hk]%elem_of_app; [done|].
        apply list_elem_of_singleton in Hk. done.
Qed.

(** X9. The safe dict has exactly the keys of [data] that are listed in
    [safe_keys], each with the value it has in [data]: it is a part of
    [data], a key of [data] that is not listed is absent, a listed key that
    [data] lacks is not added, and filtering a second time changes nothing. *)
Theorem create_safe_dict_keeps_listed_keys data safe_keys :
  (∀ key : string,
      create_safe_dict data safe_keys !! key
      = if decide (key ∈ safe_keys) then data !! key else None)
  ∧ create_safe_dict data safe_keys ⊆ data
  ∧ dom (create_safe_dict data safe_keys) = dom data ∩ list_to_set safe_keys
  ∧ create_safe_dict (create_safe_dict data safe_keys) safe_keys
    = create_safe_dict data safe_keys.
Proof.
  split_and!.
  - apply create_safe_dict_lookup.
  - apply map_subseteq_spec. intros key v.
    rewrite create_safe_dict_lookup. by case_decide.
  - apply set_eq. intros key.
    rewrite elem_of_intersection, !elem_of_dom, create_safe_dict_lookup,
      elem_of_list_to_set.
    case_decide; split; try tauto.
    + intros [x ?]. done.
  - apply map_eq. intros key. rewrite !create_safe_dict_lookup.
    by case_decide.
Qed.
End SafeDict.

(** ** The database URI *)

(** X13. [validate_database_uri] accepts every URI that [DatabaseConfig.uri]
    builds, whatever the five fields hold (empty texts, a negative port, a
    password with [@] or [/] in it). *)
Theorem database_uri_passes_validation (config : DatabaseConfig) :
  validate_database_uri (uri config) = Ok true.
Proof.
  unfold validate_database_uri.
  assert (Hprefix : String.prefix "mysql+pymysql://" (uri config) = true).
  { apply string_prefix_app. eexists. reflexivity. }
  by rewrite Hprefix, orb_true_r.
Qed.

(** ** [sanitize_sql_query] *)

Section Sanitize.
Implicit Types (q c : ascii) (s a b seen : list ascii).

Lemma shorter_ind (P : list ascii → Prop) :
  (∀ s, (∀ s', length s' < length s → P s') → P s) → ∀ s, P s.
Proof.
  intros Hstep s. remember (length s) as n eqn:Hn. revert s Hn.
  induction n as [n IH] using lt_wf_ind. intros s ->.
  apply Hstep. intros s' Hlen. by eapply IH.
Qed.

Lemma first_occurrence q s :
  q ∈ s → ∃ a b, s = a ++ q :: b ∧ q ∉ a.
Proof.
  induction s as [|c s IH]; intros Hin.
  - by apply elem_of_nil in Hin.
  - destruct (decide (c = q)) as [->|Hc].
    + exists [], s. split; [reflexivity | apply not_elem_of_nil].
    + apply elem_of_cons in Hin as [->|Hin]; [done|].
      destruct (IH Hin) as (a & b & -> & Ha).
      exists (c :: a), b. split; [reflexivity|].
      apply not_elem_of_cons. split; [congruence | done].
Qed.

Lemma mask_scan_other q c s :
  c ≠ q → mask_scan q None (c :: s) = c :: mask_scan q None s.
Proof. intros Hc. simpl. by rewrite decide_False. Qed.

Lemma mask_scan_quote q s :
  mask_scan q None (q :: s) = mask_scan q (Some []) s.
Proof. simpl. by rewrite decide_True. Qed.

Lemma mask_scan_closed q seen a b :
  q ∉ a →
  mask_scan q (Some seen) (a ++ q :: b)
  = q :: star :: star :: star :: q :: mask_scan q None b.
Proof.
  revert seen. induction a as [|c a IH]; intros seen Ha; simpl.
  - by rewrite decide_True.
  - apply not_elem_of_cons in Ha as [Hc Ha].
    rewrite decide_False by done. by apply IH.
Qed.

Lemma mask_scan_open q seen s :
  q ∉ s → mask_scan q (Some seen) s = q :: reverse seen ++ s.
Proof.
  revert seen. induction s as [|c s IH]; intros seen Hs; simpl.
  - by rewrite app_nil_r.
  - apply not_elem_of_cons in Hs as [Hc Hs].
    rewrite decide_False by done. rewrite IH by done.
    by rewrite reverse_cons, <- app_assoc.
Qed.

Lemma mask_quoted_open q s : q ∉ s → mask_quoted q (q :: s) = q :: s.
Proof.
  intros Hs. unfold mask_quoted.
  by rewrite mask_scan_quote, mask_scan_open.
Qed.

Lemma mask_quoted_closed q a b :
  q ∉ a →
  mask_quoted q (q :: a ++ q :: b)
  = q :: star :: star :: star :: q :: mask_quoted q b.
Proof.
  intros Ha. unfold mask_quoted.
  by rewrite mask_scan_quote, mask_scan_closed.
Qed.

Lemma mask_quoted_other q c s :
  c ≠ q → mask_quoted q (c :: s) = c :: mask_quoted q s.
Proof. apply mask_scan_other. Qed.

Lemma mask_quoted_plain q s : q ∉ s → mask_quoted q s = s.
Proof.
  induction s as [|c s IH]; intros Hs; [reflexivity|].
  apply not_elem_of_cons in Hs as [Hc Hs].
  rewrite mask_quoted_other by done. by rewrite IH.
Qed.

Lemma plain_masked q s : q ∉ s → masked q s.
Proof.
  induction s as [|c s IH]; intros Hs; [constructor|].
  apply not_elem_of_cons in Hs as [Hc Hs].
  apply masked_text; [done | by apply IH].
Qed.

(** The output of a pass is masked. *)
Lemma mask_quoted_masked q s : masked q (mask_quoted q s).
Proof.
  induction s as [s IHs] using shorter_ind.
  destruct s as [|c s]; [constructor|].
  destruct (decide (c = q)) as [->|Hc].
  - destruct (decide (q ∈ s)) as [Hin|Hnin].
    + apply first_occurrence in Hin as (a & b & -> & Ha).
      rewrite mask_quoted_closed by done.
      apply masked_literal, IHs. simpl. rewrite length_app. simpl. lia.
    + rewrite mask_quoted_open by done. by apply masked_open.
  - rewrite mask_quoted_other by done.
    apply masked_text; [done|]. apply IHs. simpl. lia.
Qed.

(** A masked text is left as it is. *)
Lemma mask_quoted_fixed q s : q ≠ star → masked q s → mask_quoted q s = s.
Proof.
  intros Hstar. induction 1 as [|s Hs|c s Hc _ IH|s _ IH].
  - reflexivity.
  - by apply mask_quoted_open.
  - rewrite mask_quoted_other by done. by rewrite IH.
  - change (q :: star :: star :: star :: q :: s)
      with (q :: [star; star; star] ++ q :: s).
    rewrite mask_quoted_closed; [by rewrite IH|].
    rewrite !not_elem_of_cons. split_and!; try done. apply not_elem_of_nil.
Qed.

Lemma mask_scan_no_new q q' pending s :
  q' ≠ q → q' ≠ star → q' ∉ s →
  (∀ seen, pending = Some seen → q' ∉ seen) →
  q' ∉ mask_scan q pending s.
Proof.
  intros Hq Hstar. revert pending.
  induction s as [|c s IH]; intros pending Hs Hseen.
  - destruct pending as [seen|]; simpl; [|apply not_elem_of_nil].
    apply not_elem_of_cons. split; [done|].
    rewrite elem_of_reverse. by apply Hseen.
  - apply not_elem_of_cons in Hs as [Hc Hs].
    destruct pending as [seen|]; simpl; case_decide; subst.
    + rewrite !not_elem_of_cons. split_and!; try done.
      apply IH; [done|]. intros ? [=].
    + apply IH; [done|]. intros ? [= <-].
      apply not_elem_of_cons. split; [done|]. by apply Hseen.
    + apply IH; [done|]. intros ? [= <-]. apply not_elem_of_nil.
    + apply not_elem_of_cons. split; [done|].
      apply IH; [done|]. intros ? [=].
Qed.

Lemma mask_quoted_no_new q q' s :
  q' ≠ q → q' ≠ star → q' ∉ s → q' ∉ mask_quoted q s.
Proof.
  intros Hq Hstar Hs. by apply mask_scan_no_new.
Qed.

(** What follows a character that is neither the quote nor a star in a
    masked text is masked. *)
Lemma masked_after q c s :
  masked q s → c ≠ q → c ≠ star → ∀ a b, s = a ++ c :: b → masked q b.
Proof.
  intros Hs Hc Hstar.
  induction Hs as [|s Hs|c' s Hc' Hm IH|s Hm IH]; intros a b Heq.
  - by destruct a.
  - destruct a as [|x a]; simplify_eq/=.
    apply plain_masked. intros Hin. apply Hs.
    apply elem_of_app. right. by right.
  - destruct a as [|x a]; simplify_eq/=; [done|]. by eapply IH.
  - destruct a as [|x1 [|x2 [|x3 [|x4 [|x5 a]]]]]; simplify_eq/=.
    by eapply IH.
Qed.

(** A pass for another quote keeps a masked text masked. *)
Lemma mask_quoted_keeps_masked q q' s :
  q ≠ q' → q ≠ star → q' ≠ star →
  masked q s → masked q (mask_quoted q' s).
Proof.
  intros Hq Hstar Hstar'.
  induction s as [s IHs] using shorter_ind.
  intros Hm. destruct s as [|c s]; [constructor|].
  destruct (decide (c = q')) as [->|Hc].
  - destruct (decide (q' ∈ s)) as [Hin|Hnin].
    + apply first_occurrence in Hin as (a & b & -> & Ha).
      rewrite mask_quoted_closed by done.
      assert (Hb : masked q b).
      { eapply (masked_after q q' _ Hm); [done | done |].
        by instantiate (1 := q' :: a). }
      repeat (apply masked_text; [done|]).
      apply IHs; [|done]. simpl. rewrite length_app. simpl. lia.
    + by rewrite mask_quoted_open.
  - rewrite mask_quoted_other by done.
    inversion Hm as [|s' Hs'|c' s' Hc' Hm'|s' Hm']; subst.
    + apply masked_open. by apply mask_quoted_no_new.
    + apply masked_text; [done|]. apply IHs; [simpl; lia | done].
    + rewrite !mask_quoted_other by done.
      apply masked_literal. apply IHs; [simpl; lia | done].
Qed.

Lemma quotes_differ :
  single_quote ≠ double_quote ∧ single_quote ≠ star ∧ double_quote ≠ star.
Proof. split_and!; discriminate. Qed.

Lemma sanitize_chars (query : string) :
  String.list_ascii_of_string (sanitize_sql_query query)
  = mask_quoted double_quote
      (mask_quoted single_quote (String.list_ascii_of_string query)).
Proof.
  unfold sanitize_sql_query. apply String.list_ascii_of_string_of_list_ascii.
Qed.


(** X11. Sanitizing a sanitized query changes nothing. *)
Theorem sanitize_sql_query_idempotent (query : string) :
  sanitize_sql_query (sanitize_sql_query query) = sanitize_sql_query query.
Proof.
  destruct quotes_differ as (Hsd & Hs & Hd).
  unfold sanitize_sql_query at 1. rewrite sanitize_chars.
  set (once := mask_quoted double_quote
                 (mask_quoted single_quote (String.list_ascii_of_string query))).
  assert (Hsingle : masked single_quote once).
  { apply mask_quoted_keeps_masked; try done. apply mask_quoted_masked. }
  assert (Hdouble : masked double_quote once) by apply mask_quoted_masked.
  rewrite (mask_quoted_fixed single_quote) by done.
  rewrite (mask_quoted_fixed double_quote) by done.
  subst once. by rewrite <- sanitize_chars, String.string_of_list_ascii_of_string.
Qed.
End Sanitize.

(** X12. A query without any quote is returned as it is. *)
Theorem sanitize_sql_query_without_quotes (query : string) :
  single_quote ∉ String.list_ascii_of_string query →
  double_quote ∉ String.list_ascii_of_string query →
  sanitize_sql_query query = query.
Proof.
  intros Hsingle Hdouble. unfold sanitize_sql_query.
  rewrite (mask_quoted_plain single_quote) by done.
  rewrite (mask_quoted_plain double_quote) by done.
  apply String.string_of_list_ascii_of_string.
Qed.

(** ** The session and the controller *)

(** The four ways a controller call can go: no agent, [stream] raises,
    [get_state] raises, or both answer. *)
Ltac controller_cases s input :=
  destruct (session_state.agent s) as [a|] eqn:Hagent;
  [ destruct (agent_stream a input) as [events|e] eqn:Hstream;
    [ cbv zeta; destruct (agent_get_state a) as [state|e] eqn:Hstate | ]
  | ].

Section Controller.
Import session_state.
Implicit Type s : session_state.t.

Lemma with_more_messages_nil s : with_more_messages [] s = s.
Proof. unfold with_more_messages. rewrite app_nil_r. by destruct s. Qed.

Lemma with_more_messages_app (m1 m2 : list ChatMessage) s :
  with_more_messages m2 (with_more_messages m1 s)
  = with_more_messages (m1 ++ m2) s.
Proof. unfold with_more_messages. simpl. by rewrite app_assoc. Qed.

Lemma add_messages_fold (msgs : list Message) s :
  foldl (λ s msg, add_message "assistant" (msg_content msg) s) s msgs
  = with_more_messages (assistant <$> (msg_content <$> msgs)) s.
Proof.
  revert s. induction msgs as [|msg msgs IH]; intros s.
  - by rewrite with_more_messages_nil.
  - cbn [foldl]. rewrite IH.
    change (add_message "assistant" (msg_content msg) s)
      with (with_more_messages [assistant (msg_content msg)] s).
    by rewrite with_more_messages_app.
Qed.

Lemma process_item (item : string * NodeData) s :
  (let '(node_name, node_data) := item in
   match node_data with
   | NodeDict d =>
       match node_messages d with
       | Some msgs =>
           foldl (λ s msg, add_message "assistant" (msg_content msg) s) s msgs
       | None => s
       end
   | NodeOther => s
   end)
  = with_more_messages (assistant <$> item_contents item) s.
Proof.
  destruct item as [node_name [d|]]; unfold item_contents; simpl.
  - destruct (node_messages d) as [msgs|]; simpl.
    + apply add_messages_fold.
    + by rewrite with_more_messages_nil.
  - by rewrite with_more_messages_nil.
Qed.

Lemma process_items (items : list (string * NodeData)) s :
  foldl (λ s '(node_name, node_data),
           match node_data with
           | NodeDict d =>
               match node_messages d with
               | Some msgs =>
                   foldl (λ s msg, add_message "assistant" (msg_content msg) s)
                         s msgs
               | None => s
               end
           | NodeOther => s
           end) s items
  = with_more_messages (assistant <$> (items ≫= item_contents)) s.
Proof.
  revert s. induction items as [|item items IH]; intros s.
  - by rewrite with_more_messages_nil.
  - cbn [foldl]. rewrite IH, (process_item item s).
    rewrite with_more_messages_app. by rewrite <- fmap_app.
Qed.

Lemma process_workflow_events_spec (events : list Event) s :
  _process_workflow_events events s
  = with_more_messages (assistant <$> event_contents events) s.
Proof.
  unfold _process_workflow_events.
  revert s. induction events as [|event events IH]; intros s.
  - by rewrite with_more_messages_nil.
  - cbn [foldl]. rewrite IH.
    assert (Hevent :
      match event with
      | EventDict items =>
          foldl (λ s '(node_name, node_data),
                   match node_data with
                   | NodeDict d =>
                       match node_messages d with
                       | Some msgs =>
                           foldl (λ s msg,
                                    add_message "assistant" (msg_content msg) s)
                                 s msgs
                       | None => s
                       end
                   | NodeOther => s
                   end) s items
      | EventOther => s
      end
      = with_more_messages
          (assistant <$> match event with
                         | EventDict items => items ≫= item_contents
                         | EventOther => []
                         end) s).
    { destruct event as [items|];
        [apply process_items | by rewrite with_more_messages_nil]. }
    rewrite Hevent, with_more_messages_app. by rewrite <- fmap_app.
Qed.

(** X14. [_process_workflow_events] adds to the chat, in order and with the role
    [assistant], the content of every message that an event carries under a
    node returning a dict with the key [messages]; events and items of any
    other shape add nothing, and nothing else in the session changes. *)
Theorem process_workflow_events_appends_contents (events : list Event) s :
  _process_workflow_events events s
  = with_more_messages (assistant <$> event_contents events) s
  ∧ length (messages (_process_workflow_events events s))
    = length (messages s) + length (event_contents events).
Proof.
  rewrite process_workflow_events_spec. split; [reflexivity|].
  simpl. by rewrite length_app, length_fmap.
Qed.
Lemma handle_workflow_state_spec (state : StateSnapshot) s :
  let r := _handle_workflow_state state s in
  (r.1 = true ↔ snapshot_next state ≠ [])
  ∧ workflow_state r.2
    = (if r.1 then "waiting_for_feedback" else "waiting_for_question")
  ∧ buttons_disabled r.2 = false
  ∧ feedback_sent r.2 = false
  ∧ thread_id r.2 = thread_id s
  ∧ agent r.2 = agent s
  ∧ messages r.2 = messages s
  ∧ (if r.1 then current_interrupt r.2 = Some (_extract_interrupt_data state)
              ∧ pending_feedback r.2 = pending_feedback s
     else current_interrupt r.2 = None ∧ pending_feedback r.2 = None).
Proof.
  unfold _handle_workflow_state.
  destruct (snapshot_next state); simpl; split_and!; try done.
  all: split; done.
Qed.

Lemma controller_outcome_holds (input : StreamInput) s :
  controller_outcome input s
    match agent s with
    | None => (false, set_completion_state s)
    | Some a =>
        match agent_stream a input with
        | Raise e => (false, set_completion_state s)
        | Ok events =>
            let s := _process_workflow_events events s in
            match agent_get_state a with
            | Raise e => (false, set_completion_state s)
            | Ok state => _handle_workflow_state state s
            end
        end
    end.
Proof.
  unfold controller_outcome. controller_cases s input.
  - rewrite process_workflow_events_spec.
    set (s1 := with_more_messages (assistant <$> event_contents events) s).
    pose proof (handle_workflow_state_spec state s1)
      as (Hr & Hw & Hb & Hf & Ht & Ha & Hm & Hi).
    cbv zeta in *.
    set (r := _handle_workflow_state state s1) in *.
    split_and!.
    + rewrite Hr. split.
      * intros Hnext. by exists a, events, state.
      * intros (a' & events' & state' & [= <-] & Hs' & Hg' & Hnext).
        rewrite Hstream in Hs'. rewrite Hstate in Hg'. by simplify_eq.
    + exact Hw.
    + rewrite Hw. by destruct r.1.
    + exact Hb.
    + exact Hf.
    + by rewrite Ht.
    + by rewrite Ha.
    + rewrite Hm. by apply prefix_app_r.
    + destruct r.1; [|by destruct Hi].
      destruct Hi as [-> ->]. split; [by eexists | done].
  - rewrite process_workflow_events_spec. simpl.
    split_and!; try done.
    + split; [done|].
      intros (a' & events' & state' & [= <-] & _ & Hg' & _). congruence.
    + by apply prefix_app_r.
  - simpl. split_and!; try done.
    split; [done|].
    intros (a' & events' & state' & [= <-] & Hs' & _). congruence.
  - simpl. split_and!; try done.
    split; [done|]. intros (a' & ? & ? & ? & _). done.
Qed.

Lemma process_feedback_outcome (text : string) s :
  controller_outcome (Resume text) s (process_feedback text s).
Proof. apply controller_outcome_holds. Qed.

(** X15. Whatever the graph does during [process_initial_question] or
    [process_feedback] (answer, raise in [stream], raise in [get_state], or
    not be initialised at all), the call returns normally.  It returns [True]
    exactly when both graph calls went through and the snapshot names a next
    node; the session is then waiting for feedback with an interrupt at
    hand, and otherwise back to waiting for a question.  In no case is the
    session left in the processing state, its buttons stay enabled, the
    thread id and the agent are kept, and the chat only grows. *)
Theorem controller_calls_always_settle (text : string) s :
  controller_outcome (Initial (initial_state text)) s
    (process_initial_question text s)
  ∧ controller_outcome (Resume text) s (process_feedback text s).
Proof.
  split; [apply controller_outcome_holds | apply process_feedback_outcome].
Qed.

(** X16. The buttons of the selection row can only answer with a selector or with
    [cancel], a value the router of the graph never sends back to
    generation; a click disables the buttons, and without a click the
    session is untouched. *)
Theorem selection_buttons_never_retry (button : string → bool) s :
  let r := _display_selection_options button s in
  match r.1 with
  | Some choice =>
      choice ∈ ["1"; "2"; "3"; "cancel"]
      ∧ buttons_disabled r.2 = true
      ∧ ∀ st : State,
          next_after_feedback (apply_update st (wait_user_feedback st choice))
          ≠ "retry"
  | None => r.2 = s
  end.
Proof.
  unfold _display_selection_options.
  destruct (button "opt1"); [|destruct (button "opt2");
    [|destruct (button "opt3"); [|destruct (button "cancel")]]]; simpl;
    try (split_and!; [set_solver | done | intros st; done]).
  done.
Qed.

(** X17. A pending feedback is handed to [process_feedback] and is gone
    afterwards; with nothing pending the session is left as it is. *)
Theorem pending_feedback_is_consumed s :
  match pending_feedback s with
  | Some (String c rest) =>
      _handle_pending_feedback s
      = (process_feedback (String c rest) (set_pending_feedback None s)).2
      ∧ pending_feedback (_handle_pending_feedback s) = None
  | _ => _handle_pending_feedback s = s
  end.
Proof.
  unfold _handle_pending_feedback.
  destruct (pending_feedback s) as [[|c rest]|] eqn:Hp; try done.
  split; [done|].
  destruct (process_feedback_outcome (String c rest)
              (set_pending_feedback None s))
    as (_ & _ & _ & _ & _ & _ & _ & _ & Hpending).
  destruct (process_feedback _ _).1; [by destruct Hpending | done].
Qed.
End Controller.

(** ** More on the runs of the graph *)

Section Runs.
Context `{PyBuiltins}.

Lemma run_cons (w : World) (ws : list World) (c : Config) :
  run (w :: ws) c = run ws (step w c).
Proof. reflexivity. Qed.

Lemma run_task_only_suggestions (w : World) (s : Send) :
  only_suggestions (run_task w s).
Proof.
  destruct s as [target arg]. unfold only_suggestions.
  destruct target; simpl; try by constructor.
  - unfold query_agent_1, try_except, get_query_params.
    destruct (db_dialect _); simpl;
      [destruct (db_usable_tables _); simpl;
         [destruct (basic_chain _ _); simpl|]|];
      repeat constructor; eauto.
  - unfold query_agent_2, try_except, get_query_params.
    destruct (db_dialect _); simpl;
      [destruct (db_usable_tables _); simpl;
         [destruct (optimized_chain _ _); simpl|]|];
      repeat constructor; eauto.
  - unfold query_agent_3, try_except, get_query_params.
    destruct (db_dialect _); simpl;
      [destruct (db_usable_tables _); simpl;
         [destruct (advanced_chain _ _); simpl|]|];
      repeat constructor; eauto.
Qed.

Lemma reorder_Forall {A} (P : A → Prop) (o : Order) (l : list A) :
  Forall P l → Forall P (reorder o l).
Proof. intros Hl. by rewrite reorder_perm. Qed.

(** What an update that only writes [query_suggestion] leaves alone. *)
Lemma only_suggestions_frame (st : State) (u : Update) :
  only_suggestions u →
  let st' := apply_update st u in
  messages st' = messages st
  ∧ user_request st' = user_request st
  ∧ user_feedback st' = user_feedback st
  ∧ selected_query st' = selected_query st
  ∧ refactoring_suggestion st' = refactoring_suggestion st
  ∧ query_result st' = query_result st
  ∧ error_message st' = error_message st.
Proof.
  intros Hu. revert st. induction Hu as [|w u [l ->] _ IH]; intros st.
  - done.
  - rewrite apply_update_cons.
    apply (IH (apply_write st (Key_query_suggestion l))).
Qed.

Lemma tasks_frame (w : World) (sends : list Send) (st : State) :
  let st' := (step w (Tasks sends, st)).2 in
  messages st' = messages st
  ∧ user_request st' = user_request st
  ∧ user_feedback st' = user_feedback st
  ∧ selected_query st' = selected_query st
  ∧ refactoring_suggestion st' = refactoring_suggestion st
  ∧ query_result st' = query_result st
  ∧ error_message st' = error_message st.
Proof.
  cbn [step snd].
  assert (Hall : Forall only_suggestions
                   (reorder (world_completion w) (run_task w <$> sends))).
  { apply reorder_Forall, Forall_fmap, Forall_forall.
    intros s _. apply run_task_only_suggestions. }
  revert st. induction Hall as [|u us Hu _ IH]; intros st; [done|].
  cbn [foldl].
  destruct (IH (apply_update st u)) as (E1 & E2 & E3 & E4 & E5 & E6 & E7).
  destruct (only_suggestions_frame st u Hu) as (F1 & F2 & F3 & F4 & F5 & F6 & F7).
  cbv zeta in *. split_and!; congruence.
Qed.

Lemma step_user_request (w : World) (c : Config) :
  user_request (step w c).2 = user_request c.2.
Proof.
  destruct c as [[n|sends] st].
  - destruct n; cbn [step snd]; try reflexivity.
    all: unfold wait_user_feedback, execute_query, try_except, end_on_success.
    all: repeat case_decide; try reflexivity.
    by destruct (db_execute_query _ _).
  - apply tasks_frame.
Qed.

(** X18. No step of any run changes the question: [user_request] at the end of
    a run is what it was at its start, whatever the nodes, the chains, the
    database and the user did in between. *)
Theorem user_request_never_changes (ws : list World) (c : Config) :
  user_request (run ws c).2 = user_request c.2.
Proof.
  revert c. induction ws as [|w ws IH]; intros c; [reflexivity|].
  by rewrite run_cons, IH, step_user_request.
Qed.

Lemma step_result_or_error (w : World) (c : Config) :
  query_result c.2 = None ∨ error_message c.2 = None →
  query_result (step w c).2 = None ∨ error_message (step w c).2 = None.
Proof.
  destruct c as [[n|sends] st]; cbn [snd].
  - destruct n; cbn [step snd]; try done.
    all: unfold wait_user_feedback, execute_query, try_except, end_on_success.
    all: repeat case_decide; try done; try by left.
    all: try by destruct (truthy _).
    intros _. destruct (db_execute_query _ _); [by right | by left].
  - destruct (tasks_frame w sends st) as (_ & _ & _ & _ & _ & -> & ->). done.
Qed.

(** X19. In every state of every run from a fresh start, [query_result] and
    [error_message] are never both set: an execution leaves either a result
    or an error text. *)
Theorem result_and_error_exclude_each_other (ws : list World) (question : string) :
  let c := run ws (start question) in
  query_result c.2 = None ∨ error_message c.2 = None.
Proof.
  assert (Hinv : ∀ ws c,
             query_result c.2 = None ∨ error_message c.2 = None →
             query_result (run ws c).2 = None
             ∨ error_message (run ws c).2 = None).
  { clear ws. intros ws. induction ws as [|w ws IH]; intros c Hc; [done|].
    rewrite run_cons. by apply IH, step_result_or_error. }
  apply Hinv. by left.
Qed.

Lemma step_messages (w : World) (c : Config) :
  (c.1 ≠ At Node.END → messages c.2 = []) →
  length (messages c.2) ≤ 3 →
  (c.1 = At Node.END → 1 ≤ length (messages c.2)) →
  ((step w c).1 ≠ At Node.END → messages (step w c).2 = [])
  ∧ length (messages (step w c).2) ≤ 3
  ∧ ((step w c).1 = At Node.END → 1 ≤ length (messages (step w c).2)).
Proof.
  destruct c as [[n|sends] st]; cbn [fst snd]; intros Hempty Hlen Hend.
  - destruct n; cbn [step fst snd].
    + (* gateway *)
      split_and!; [intros _; by apply Hempty | exact Hlen | done].
    + (* wait_user_feedback *)
      assert (Hm : messages (apply_update st
                    (wait_user_feedback st (world_input w))) = messages st).
      { unfold wait_user_feedback. repeat case_decide; reflexivity. }
      rewrite Hm. split_and!; [intros _; by apply Hempty | exact Hlen |].
      rewrite next_after_feedback_cases.
      repeat case_decide; done.
    + (* execute_query *)
      assert (Hm : messages (apply_update st (execute_query (world_db w) st))
                   = messages st).
      { unfold execute_query, try_except.
        by destruct (db_execute_query _ _). }
      rewrite Hm. split_and!; [intros _; by apply Hempty | exact Hlen |].
      unfold after_execute.
      by destruct (error_message _).
    + split_and!; [exact Hempty | exact Hlen | exact Hend].
    + split_and!; [exact Hempty | exact Hlen | exact Hend].
    + split_and!; [exact Hempty | exact Hlen | exact Hend].
    + (* aggregate *)
      split_and!; [intros _; by apply Hempty | exact Hlen | done].
    + (* end_on_success *)
      rewrite end_on_success_messages, Hempty by done.
      split_and!; [done | | ]; destruct (truthy _); simpl; lia.
    + (* end_on_error *)
      simpl. rewrite Hempty by done. split_and!; [done | simpl; lia | simpl; lia].
    + (* end_on_cancel *)
      simpl. rewrite Hempty by done. split_and!; [done | simpl; lia | simpl; lia].
    + split_and!; [exact Hempty | exact Hlen | exact Hend].
  - destruct (tasks_frame w sends st) as (Hm & _).
    cbv zeta in Hm. rewrite Hm. cbn [step fst].
    split_and!; [intros _; by apply Hempty | exact Hlen | done].
Qed.

(** X20. From a fresh start, the transcript [messages] stays empty as long as the
    run has not ended, and a run that has ended has written between one and
    three messages. *)
Theorem messages_only_at_the_end (ws : list World) (question : string) :
  let c := run ws (start question) in
  (c.1 ≠ At Node.END → messages c.2 = [])
  ∧ length (messages c.2) ≤ 3
  ∧ (c.1 = At Node.END → 1 ≤ length (messages c.2)).
Proof.
  assert (Hinv : ∀ ws c,
    (c.1 ≠ At Node.END → messages c.2 = []) →
    length (messages c.2) ≤ 3 →
    (c.1 = At Node.END → 1 ≤ length (messages c.2)) →
    ((run ws c).1 ≠ At Node.END → messages (run ws c).2 = [])
    ∧ length (messages (run ws c).2) ≤ 3
    ∧ ((run ws c).1 = At Node.END → 1 ≤ length (messages (run ws c).2))).
  { clear ws. intros ws. induction ws as [|w ws IH]; intros c H1 H2 H3; [done|].
    rewrite run_cons.
    destruct (step_messages w c H1 H2 H3) as (? & ? & ?). by apply IH. }
  apply Hinv; simpl; [done | lia | done].
Qed.
(** The whole state after the gateway and the fan-out. *)
Lemma fan_out_state (w0 w : World) (st : State) :
  run [w0; w] (At Node.gateway, st)
  = (At Node.aggregate,
     apply_update (apply_update st (gateway st))
       [Key_query_suggestion (cycle_entries w st)]).
Proof.
  unfold run. cbn [foldl step generate_query fmap list_fmap run_task].
  change (user_request (apply_update st (gateway st))) with (user_request st).
  change (user_feedback (apply_update st (gateway st))) with (user_feedback st).
  rewrite query_agent_1_update, query_agent_2_update, query_agent_3_update.
  f_equal. unfold cycle_entries.
  destruct (world_completion w); simpl; f_equal;
    by rewrite <- !app_assoc.
Qed.

Lemma feedback_text_update (st : State) (s : string) :
  s ∉ selectors → wait_user_feedback st s = [Key_user_feedback s].
Proof.
  intros Hs. unfold wait_user_feedback.
  repeat case_decide; subst; try done; exfalso; apply Hs; compute_done.
Qed.

Lemma retry_step (w : World) (st : State) :
  world_input w ∉ selectors → world_input w ∉ cancel_keywords →
  step w (At Node.wait_user_feedback, st)
  = (At Node.gateway, apply_update st [Key_user_feedback (world_input w)]).
Proof.
  intros Hs Hc. cbn [step]. rewrite feedback_text_update by done.
  rewrite next_after_feedback_cases.
  change (user_feedback (apply_update st [Key_user_feedback (world_input w)]))
    with (world_input w).
  by rewrite !decide_False by done.
Qed.

Lemma retry_cycle_control (w1 w2 w3 w4 : World) (st : State) :
  world_input w1 ∉ selectors → world_input w1 ∉ cancel_keywords →
  (run [w1; w2; w3; w4] (At Node.wait_user_feedback, st)).1
  = At Node.wait_user_feedback.
Proof.
  intros Hs Hc. rewrite run_cons, retry_step by done.
  change (run [w2; w3; w4] ?c) with (step w4 (run [w2; w3] c)).
  by rewrite fan_out_state.
Qed.

(** X21. A resume value that is neither a selector nor a cancel keyword brings
    the run back to the suspension in four steps: the value is now
    [user_feedback], the three candidates generated with it are appended,
    the four cycle fields are [None], and the question and the transcript
    are as before. *)
Theorem feedback_text_starts_a_new_cycle (w1 w2 w3 w4 : World) (st : State) :
  world_input w1 ∉ selectors → world_input w1 ∉ cancel_keywords →
  run [w1; w2; w3; w4] (At Node.wait_user_feedback, st)
  = (At Node.wait_user_feedback,
     apply_update st
       [ Key_user_feedback (world_input w1);
         Key_selected_query None;
         Key_refactoring_suggestion None;
         Key_query_result None;
         Key_error_message None;
         Key_query_suggestion
           (cycle_entries w3
              (apply_update st [Key_user_feedback (world_input w1)])) ]).
Proof.
  intros Hs Hc. rewrite run_cons, retry_step by done.
  change (run [w2; w3; w4] ?c) with (step w4 (run [w2; w3] c)).
  rewrite fan_out_state. cbn [step]. f_equal.
  destruct st. simpl. by rewrite app_nil_r.
Qed.

Lemma cancel_step (w : World) (st : State) :
  world_input w ∈ cancel_keywords →
  step w (At Node.wait_user_feedback, st)
  = (At Node.end_on_cancel, apply_update st [Key_user_feedback (world_input w)]).
Proof.
  intros Hc. cbn [step]. unfold cancel_keywords in Hc.
  repeat (apply elem_of_cons in Hc as [->|Hc]); try reflexivity.
  by apply elem_of_nil in Hc.
Qed.

(** X22. A cancel keyword ends the run in two steps with the single message of
    [end_on_cancel]; apart from [user_feedback] and that message the state
    is untouched, and neither the database nor a chain has any part in it. *)
Theorem cancel_keyword_ends_the_run (w1 w2 : World) (st : State) :
  world_input w1 ∈ cancel_keywords →
  run [w1; w2] (At Node.wait_user_feedback, st)
  = (At Node.END,
     apply_update st
       [ Key_user_feedback (world_input w1);
         Key_messages [AIMessage "쿼리 실행 취소"] ]).
Proof.
  intros Hc. by rewrite run_cons, cancel_step.
Qed.

Lemma selector_run_ends (w1 w2 w3 : World) (st : State) :
  world_input w1 ∈ selectors →
  (run [w1; w2; w3] (At Node.wait_user_feedback, st)).1 = At Node.END.
Proof.
  intros Hs. unfold run. cbn [foldl].
  assert (Hstep : (step w1 (At Node.wait_user_feedback, st)).1
                  = At Node.execute_query).
  { cbn [step fst]. rewrite next_after_feedback_cases.
    rewrite wait_user_feedback_stores_input. by rewrite decide_True. }
  destruct (step w1 _) as [ctl1 st1]. cbn [fst] in Hstep. subst ctl1.
  cbn [step]. unfold after_execute.
  destruct (error_message _); reflexivity.
Qed.

(** X23. Whatever is typed at the suspension, four steps later the run has ended
    or is suspended again: it is never left anywhere else. *)
Theorem resume_ends_or_suspends_again (w1 w2 w3 w4 : World) (st : State) :
  let c := run [w1; w2; w3; w4] (At Node.wait_user_feedback, st) in
  c.1 = At Node.END ∨ c.1 = At Node.wait_user_feedback.
Proof.
  destruct (decide (world_input w1 ∈ selectors)) as [Hs|Hs].
  - left. change (run [w1; w2; w3; w4] ?c) with (step w4 (run [w1; w2; w3] c)).
    pose proof (selector_run_ends w1 w2 w3 st Hs) as Hend.
    destruct (run [w1; w2; w3] _) as [ctl s3]. cbn [fst] in Hend.
    by subst ctl.
  - destruct (decide (world_input w1 ∈ cancel_keywords)) as [Hc|Hc].
    + left.
      change (run [w1; w2; w3; w4] ?c)
        with (step w4 (step w3 (step w2 (step w1 c)))).
      by rewrite cancel_step.
    + right. by apply retry_cycle_control.
Qed.

(** X24. On a fresh start, each selector picks the candidate that its agent
    handed in during the cycle, in whatever order the three tasks
    completed, and the run goes on to [execute_query]; with ["3"] the
    suggestions of agent 3 are stored as well. *)
Theorem first_cycle_selector_picks_its_agent
    (question : string) (w0 w wa : World)
    (db : DatabaseManager) (chains : QueryChainManager) (o : Order) :
  let pick s :=
    run [ w0; w; wa;
          {| world_db := db; world_chains := chains;
             world_completion := o; world_input := s |} ]
        (start question) in
  let st := initial_state question in
  ((pick "1").1 = At Node.execute_query
   ∧ selected_query (pick "1").2
     = Some (query (entry_1 (chain_outcome w basic_chain st)).2))
  ∧ ((pick "2").1 = At Node.execute_query
     ∧ selected_query (pick "2").2
       = Some (query (entry_2 (chain_outcome w optimized_chain st)).2))
  ∧ ((pick "3").1 = At Node.execute_query
     ∧ selected_query (pick "3").2
       = Some (query (entry_3 (chain_outcome w advanced_chain st)).2)
     ∧ refactoring_suggestion (pick "3").2
       = Some (default []
                 (suggestion (entry_3 (chain_outcome w advanced_chain st)).2))).
Proof.
  intros pick st. subst pick. cbv beta.
  assert (Hrun : ∀ wr, run [w0; w; wa; wr] (start question)
                       = step wr (step wa (run [w0; w] (start question))))
    by reflexivity.
  rewrite !Hrun. unfold start. rewrite fan_out_state. fold st.
  unfold cycle_entries, entry_1, entry_2, entry_3.
  destruct (world_completion w);
    destruct (chain_outcome w advanced_chain st);
    split_and!; reflexivity.
Qed.
Lemma find_in_none (entries : list (string * QueryData)) (agent_name : string) :
  find_in entries agent_name = None ↔ agent_name ∉ entries.*1.
Proof.
  induction entries as [|[agent d] entries IH]; simpl.
  - split; [intros _; apply not_elem_of_nil | done].
  - rewrite not_elem_of_cons. case_decide; subst.
    + split; [done | intros [? _]; done].
    + rewrite IH. split; [by split | by intros [_ ?]].
Qed.

(** X25. A selector whose producer has no entry in [query_suggestion] still goes
    on to [execute_query], with [selected_query] set to [None]: the database
    is then called with [None] in place of a query, and what it answers or
    raises decides between the two terminals. *)
Theorem selector_without_candidate_executes_none (w w' : World) (st : State) :
  world_input w ∈ selectors →
  agent_of_selector (world_input w) ∉ (query_suggestion st).*1 →
  let c := step w (At Node.wait_user_feedback, st) in
  c.1 = At Node.execute_query
  ∧ selected_query c.2 = None
  ∧ refactoring_suggestion c.2
    = (if decide (world_input w = "3") then Some []
       else refactoring_suggestion st)
  ∧ execute_query (world_db w') c.2
    = match db_execute_query (world_db w') None with
      | Ok r => [Key_query_result (Some r); Key_error_message None]
      | Raise e => [Key_query_result None; Key_error_message (Some e)]
      end.
Proof.
  intros Hs Hnone c. subst c.
  apply find_in_none in Hnone.
  assert (Hupd :
    wait_user_feedback st (world_input w)
    = if decide (world_input w = "3")
      then [ Key_user_feedback "3"; Key_selected_query None;
             Key_refactoring_suggestion (Some []) ]
      else [ Key_user_feedback (world_input w); Key_selected_query None ]).
  { unfold wait_user_feedback, find_selected_query, find_suggestion.
    apply selectors_inv in Hs as [Hs|[Hs|Hs]]; rewrite Hs in *;
      match type of Hnone with
      | context [agent_of_selector ?s] =>
          let v := eval vm_compute in (agent_of_selector s) in
          change (agent_of_selector s) with v in Hnone
      end;
      by rewrite Hnone. }
  cbn [step]. rewrite Hupd.
  assert (Hnext :
    next_after_feedback
      (apply_update st
         (if decide (world_input w = "3")
          then [ Key_user_feedback "3"; Key_selected_query None;
                 Key_refactoring_suggestion (Some []) ]
          else [ Key_user_feedback (world_input w); Key_selected_query None ]))
    = "execute").
  { rewrite <- Hupd, next_after_feedback_cases, wait_user_feedback_stores_input.
    by rewrite decide_True. }
  rewrite Hnext. unfold execute_query, try_except.
  case_decide; cbn [fst snd]; simpl;
    (split_and!; [reflexivity | reflexivity | reflexivity |]);
    by destruct (db_execute_query _ _).
Qed.

Lemma chain_outcome_raise (w : World)
    (chain : QueryChainManager → Params → result QueryOutput) (st : State)
    (e : string) :
  get_query_params (world_db w) (world_chains w)
    (user_request st) (user_feedback st) = Raise e →
  chain_outcome w chain st = Raise e.
Proof. intros Hp. unfold chain_outcome. by rewrite Hp. Qed.

(** X26. When the parameters cannot be built (the database raises on its dialect
    or on its table names), the three candidates of the cycle are the same
    placeholder carrying that error, and the chains have no part in them. *)
Theorem parameter_fault_gives_three_placeholders
    (w0 w : World) (st : State) (e : string) :
  get_query_params (world_db w) (world_chains w)
    (user_request st) (user_feedback st) = Raise e →
  (db_dialect (world_db w) = Raise e
   ∨ db_usable_tables (world_db w) = Raise e)
  ∧ query_suggestion (run [w0; w] (At Node.gateway, st)).2
    = query_suggestion st ++ reorder (world_completion w) (placeholders e).
Proof.
  intros Hp. split.
  - revert Hp. unfold get_query_params.
    destruct (db_dialect _); simpl; [|by intros [= ->]; left].
    destruct (db_usable_tables _); simpl; [done | by intros [= ->]; right].
  - rewrite fan_out_state. simpl. rewrite app_nil_r. f_equal.
    unfold cycle_entries. by rewrite !(chain_outcome_raise _ _ _ e).
Qed.
End Runs.

(** ** What is shown after a controller call *)

Section Panels.
Import session_state.
Implicit Type s : session_state.t.

Lemma controller_panel (input : StreamInput) s :
  let r :=
    match agent s with
    | None => (false, set_completion_state s)
    | Some a =>
        match agent_stream a input with
        | Raise e => (false, set_completion_state s)
        | Ok events =>
            let s := _process_workflow_events events s in
            match agent_get_state a with
            | Raise e => (false, set_completion_state s)
            | Ok state => _handle_workflow_state state s
            end
        end
    end in
  interaction_panel_cleared s = false →
  _render_interaction_panel r.2
  = if r.1
    then match current_interrupt r.2 with
         | Some interrupt_data => FeedbackInput interrupt_data
         | None => NoPanel
         end
    else QuestionInput.
Proof.
  intros r Hflag. subst r. controller_cases s input; try reflexivity.
  rewrite process_workflow_events_spec. unfold _handle_workflow_state.
  destruct (snapshot_next state); [reflexivity|].
  unfold _render_interaction_panel. simpl. by rewrite Hflag.
Qed.

Lemma process_initial_question_outcome (text : string) s :
  controller_outcome (Initial (initial_state text)) s
    (process_initial_question text s).
Proof. apply controller_outcome_holds. Qed.

Lemma initial_question_panel (text : string) s :
  interaction_panel_cleared s = false →
  _render_interaction_panel (process_initial_question text s).2
  = if (process_initial_question text s).1
    then match current_interrupt (process_initial_question text s).2 with
         | Some interrupt_data => FeedbackInput interrupt_data
         | None => NoPanel
         end
    else QuestionInput.
Proof. apply (controller_panel (Initial (initial_state text))). Qed.

Lemma feedback_panel (text : string) s :
  interaction_panel_cleared s = false →
  _render_interaction_panel (process_feedback text s).2
  = if (process_feedback text s).1
    then match current_interrupt (process_feedback text s).2 with
         | Some interrupt_data => FeedbackInput interrupt_data
         | None => NoPanel
         end
    else QuestionInput.
Proof. apply (controller_panel (Resume text)). Qed.

(** X27. The renderers put the session in the processing state, which clears
    [interaction_panel_cleared], before the controller is called.  With that
    flag cleared, the interaction panel after the call is never the
    processing one and never blank: it shows the feedback input with the
    interrupt just stored when the call returned [True], and the question
    input when it returned [False]. *)
Theorem panel_after_controller_call (text : string) s :
  interaction_panel_cleared s = false →
  let asked := process_initial_question text s in
  let answered := process_feedback text s in
  (∀ s0, interaction_panel_cleared (set_processing_state s0) = false
         ∧ _render_interaction_panel (set_processing_state s0) = ProcessingState)
  ∧ (if asked.1
     then ∃ i, current_interrupt asked.2 = Some i
               ∧ _render_interaction_panel asked.2 = FeedbackInput i
     else _render_interaction_panel asked.2 = QuestionInput)
  ∧ (if answered.1
     then ∃ i, current_interrupt answered.2 = Some i
               ∧ _render_interaction_panel answered.2 = FeedbackInput i
     else _render_interaction_panel answered.2 = QuestionInput).
Proof.
  intros Hflag asked answered. split_and!.
  - intros s0. split; reflexivity.
  - pose proof (initial_question_panel text s Hflag) as Hpanel.
    destruct (process_initial_question_outcome text s)
      as (_ & _ & _ & _ & _ & _ & _ & _ & Hint).
    fold asked in Hpanel, Hint.
    destruct asked.1; [|exact Hpanel].
    destruct Hint as [[i Hi] _]. exists i. split; [exact Hi|].
    by rewrite Hpanel, Hi.
  - pose proof (feedback_panel text s Hflag) as Hpanel.
    destruct (process_feedback_outcome text s)
      as (_ & _ & _ & _ & _ & _ & _ & _ & Hint).
    fold answered in Hpanel, Hint.
    destruct answered.1; [|exact Hpanel].
    destruct Hint as [[i Hi] _]. exists i. split; [exact Hi|].
    by rewrite Hpanel, Hi.
Qed.
End Panels.

(** ** What is shown is what is run, on the first cycle *)

Section FirstCycle.
Context `{PyBuiltins}.

(** X28. On a fresh start, the candidate that the display lists at position [i]
    is the one that selector [i] puts in [selected_query]: the three options
    shown after the first cycle are exactly what the three selectors run. *)
Theorem first_cycle_shows_what_selectors_run
    (question : string) (w0 w wa : World)
    (db : DatabaseManager) (chains : QueryChainManager) (o : Order) :
  let suspended := (run [w0; w; wa] (start question)).2 in
  let shown := _process_query_suggestions (query_suggestion suspended) in
  let pick s :=
    (step {| world_db := db; world_chains := chains;
             world_completion := o; world_input := s |}
          (At Node.wait_user_feedback, suspended)).2 in
  length shown = 3
  ∧ Some (selected_query (pick "1")) = (λ e, Some (query e.2)) <$> shown !! 0
  ∧ Some (selected_query (pick "2")) = (λ e, Some (query e.2)) <$> shown !! 1
  ∧ Some (selected_query (pick "3")) = (λ e, Some (query e.2)) <$> shown !! 2.
Proof.
  intros suspended shown pick. subst suspended shown pick. cbv beta.
  change (run [w0; w; wa] (start question))
    with (step wa (run [w0; w] (start question))).
  unfold start. rewrite fan_out_state.
  unfold cycle_entries, entry_1, entry_2, entry_3.
  destruct (world_completion w);
    destruct (chain_outcome w advanced_chain (initial_state question));
    split_and!; reflexivity.
Qed.
End FirstCycle.

(** * Concrete inputs of the further properties *)

Import MoreExamples.

(** A negative number of retries. *)
Lemma execute_with_retry_no_attempt_witness :
  (-1 ≤ 0)%Z
  ∧ execute_with_retry (H:=letters) "no traceback" sleep_ok broken (-1) 1 None
    = ([], Ok None).
Proof.
  split; [lia|].
  apply (execute_with_retry_no_attempt (H:=letters)). lia.
Defined.

(** Two failures, then an answer, with three attempts allowed. *)
Lemma execute_with_retry_first_success_witness :
  (execute_with_retry (H:=letters) "no traceback" sleep_ok flaky 3 1
     (Some "fetch")).2 = Ok (Some 7).
Proof.
  rewrite (execute_with_retry_first_success (H:=letters) "no traceback"
             sleep_ok flaky (λ _, "connection reset") 3 1 (Some "fetch") 7 2).
  - reflexivity.
  - reflexivity.
  - lia.
  - intros [|[|i]] Hi; [reflexivity | reflexivity | lia].
  - reflexivity.
Defined.

(** Two attempts allowed, both failing. *)
Lemma execute_with_retry_exhausted_witness :
  (execute_with_retry (H:=letters) "no traceback" sleep_ok broken 2 1 None).2
  = Raise "timeout 1".
Proof.
  destruct (execute_with_retry_exhausted (H:=letters) "no traceback"
              sleep_ok broken (λ n, "timeout " +:+ pretty n) 2 1 None)
    as [dbg Hrun].
  - reflexivity.
  - lia.
  - intros i _. reflexivity.
  - rewrite Hrun. reflexivity.
Defined.

(** A query without literals. *)
Lemma sanitize_sql_query_without_quotes_witness :
  sanitize_sql_query "SELECT id FROM orders WHERE total > 0"
  = "SELECT id FROM orders WHERE total > 0".
Proof.
  apply sanitize_sql_query_without_quotes; compute_done.
Defined.

(** A refinement typed at the first suspension. *)
Lemma feedback_text_starts_a_new_cycle_witness :
  let w := world db_ok chains_second O213 "only paid orders" in
  (world_input w ∉ selectors) ∧ (world_input w ∉ cancel_keywords)
  ∧ (run (H:=quoting) [w; w; w; w]
       (At Node.wait_user_feedback, suspended_first)).1
    = At Node.wait_user_feedback.
Proof.
  intros w.
  assert (Hs : world_input w ∉ selectors) by compute_done.
  assert (Hc : world_input w ∉ cancel_keywords) by compute_done.
  split_and!; [exact Hs | exact Hc |].
  by rewrite (feedback_text_starts_a_new_cycle (H:=quoting)
                w w w w suspended_first Hs Hc).
Defined.

(** [stop] typed at the first suspension. *)
Lemma cancel_keyword_ends_the_run_witness :
  let w := world db_failing chains_broken O321 "stop" in
  world_input w ∈ cancel_keywords
  ∧ (run (H:=quoting) [w; w]
       (At Node.wait_user_feedback, suspended_first)).1 = At Node.END.
Proof.
  intros w.
  assert (Hc : world_input w ∈ cancel_keywords) by compute_done.
  split; [exact Hc|].
  by rewrite (cancel_keyword_ends_the_run (H:=quoting)
                w w suspended_first Hc).
Defined.

(** The selector ["2"] before anything was generated. *)
Lemma selector_without_candidate_executes_none_witness :
  let w := world db_failing chains_first O123 "2" in
  let st := initial_state "how many orders?" in
  world_input w ∈ selectors
  ∧ (agent_of_selector (world_input w) ∉ (query_suggestion st).*1)
  ∧ selected_query
      (step (H:=quoting) w (At Node.wait_user_feedback, st)).2 = None.
Proof.
  intros w st.
  assert (Hs : world_input w ∈ selectors) by compute_done.
  assert (Hn : agent_of_selector (world_input w) ∉ (query_suggestion st).*1)
    by apply not_elem_of_nil.
  split_and!; [exact Hs | exact Hn |].
  exact (proj1 (proj2 (selector_without_candidate_executes_none
                         (H:=quoting) w w st Hs Hn))).
Defined.

(** A database that raises when asked for its dialect. *)
Lemma parameter_fault_gives_three_placeholders_witness :
  let w := world db_down chains_first O231 "" in
  let st := initial_state "how many orders?" in
  get_query_params (world_db w) (world_chains w)
    (user_request st) (user_feedback st) = Raise "server has gone away"
  ∧ query_suggestion (run (H:=quoting) [w; w] (At Node.gateway, st)).2
    = reorder O231 (placeholders "server has gone away").
Proof.
  intros w st. split; [reflexivity|].
  exact (proj2 (parameter_fault_gives_three_placeholders (H:=quoting)
                  w w st "server has gone away" eq_refl)).
Defined.

(** A session in the processing state whose graph suspends at the feedback
    node. *)
Lemma panel_after_controller_call_witness :
  session_state.interaction_panel_cleared processing_session = false
  ∧ (process_feedback "only paid orders" processing_session).1 = true
  ∧ _render_interaction_panel
      (process_feedback "only paid orders" processing_session).2
    = FeedbackInput (FromInterrupt waiting_interrupt).
Proof.
  split_and!; [reflexivity | reflexivity |].
  destruct (panel_after_controller_call "only paid orders" processing_session
              eq_refl) as (_ & _ & i & Hi & Hpanel).
  rewrite Hpanel. f_equal.
  apply (inj Some). by rewrite <- Hi.
Defined.
